(** * Advantage: the Objective subsystem of [agents/objectives.py]

    A shallow embedding of the three concrete objectives
    ([ValueGradientObjective], [DecoupledValueGradientObjective],
    [PolicyGradientObjective]) together with the slice of Python and numpy
    semantics their methods rely on.  Python objects are records, method
    bodies are computations in a state-and-exception monad whose state is
    the receiver ([self]); a raised exception leaves the mutations made so
    far in place, as in Python.  Rewards and returns are exact rationals. *)

From Stdlib Require Import String List ZArith QArith Bool Lia.
Import ListNotations.

(** ** Python exceptions and the method monad *)

Inductive PyExc : Set :=
| TypeError
| ValueError
| AttributeError
| ZeroDivisionError.

(** A method body run on receiver state [S]: it either returns a value or
    raises, and in both cases hands back the (possibly mutated) receiver. *)
Definition Py (S A : Type) : Type := S -> (PyExc + A) * S.

Definition ret {S A} (a : A) : Py S A := fun s => (inr a, s).

Definition raise {S A} (e : PyExc) : Py S A := fun s => (inl e, s).

Definition bind {S A B} (c : Py S A) (k : A -> Py S B) : Py S B :=
  fun s =>
    match c s with
    | (inr a, s') => k a s'
    | (inl e, s') => (inl e, s')
    end.

Definition get {S} : Py S S := fun s => (inr s, s).

Definition put {S} (s : S) : Py S unit := fun _ => (inr tt, s).

Definition modify {S} (f : S -> S) : Py S unit := fun s => (inr tt, f s).

(** Result of a pure library call that may raise. *)
Definition lift {S A} (r : PyExc + A) : Py S A :=
  fun s => (r, s).

(** Run a method of a component object stored inside the receiver. *)
Definition zoom {S T A} (proj : S -> T) (inj : T -> S -> S) (c : Py T A)
  : Py S A :=
  fun s => let (r, t) := c (proj s) in (r, inj t s).

Declare Scope py_scope.
Delimit Scope py_scope with py.
Notation "x <- c1 ;; c2" := (bind c1 (fun x => c2))
  (at level 61, c1 at next level, right associativity) : py_scope.
Notation "c1 ;; c2" := (bind c1 (fun _ => c2))
  (at level 61, right associativity) : py_scope.

(** [for x in xs: body(x)] *)
Fixpoint for_each {S A} (xs : list A) (body : A -> Py S unit) : Py S unit :=
  match xs with
  | [] => ret tt
  | x :: rest => (body x ;; for_each rest body)%py
  end.

(** Python's [a % b] on ints: sign of the divisor, division by zero raises. *)
Definition py_mod (a b : Z) : PyExc + Z :=
  if (b =? 0)%Z then inl ZeroDivisionError else inr (a mod b)%Z.

(** ** The numpy operations used by [_add_reward]

    One-dimensional arrays are lists. *)

Module np.

(** [np.arange(start, stop)] *)
Definition arange (start stop : Z) : list Z :=
  map (fun i => (start + Z.of_nat i)%Z) (seq 0 (Z.to_nat (stop - start))).

(** The slice [a[-1:]]: the last entry as a one-element array, or the
    empty array when [a] is empty. *)
Definition last_slice {A} (a : list A) : list A :=
  skipn (length a - 1) a.

(** [np.power(x, ks)] for a scalar base and an integer array. *)
Definition power (x : Q) (ks : list Z) : list Q :=
  map (fun k => Qpower x k) ks.

(** [a * r] for an array and a scalar. *)
Definition mul (a : list Q) (r : Q) : list Q :=
  map (fun f => f * r) a.

Fixpoint add_elementwise (out rhs : list Q) : list Q :=
  match out, rhs with
  | x :: out', y :: rhs' => (x + y) :: add_elementwise out' rhs'
  | _, _ => []
  end.

(** [out += rhs].  The right-hand side must broadcast to the shape of
    [out]: equal lengths add entry by entry, a one-element [rhs] is added
    to every entry, and any other shape raises [ValueError]
    (non-broadcastable output operand) without touching [out].  In
    particular a length-1 [out] with an empty [rhs] raises: the shapes
    (1,) and (0,) broadcast to (0,), which is not the shape of [out]. *)
Definition iadd (out rhs : list Q) : PyExc + list Q :=
  if (length rhs =? length out)%nat then inr (add_elementwise out rhs)
  else match rhs with
       | [y] => inr (map (fun x => x + y) out)
       | _ => inl ValueError
       end.

End np.

(** ** Transitions *)

Definition State : Set := list Z.
Definition Action : Set := Z.

(** The raw dictionary sampled from the environment. *)
Record EnvDict : Set := {
  env_state : State;
  env_action : Action;
  env_reward : Q;
  env_next_state : State;
  env_done : bool
}.

Record Element : Set := {
  state : State;
  action : Action;
  reward : Q;
  next_state : State;
  done : bool;
  n_step_return : Q
}.

(** Modelled from the spec: [element_cls.make_element] is not part of the
    sources; a Transition is built from the raw dict and its
    [n_step_return] starts equal to [reward]. *)
Definition make_element (env_dict : EnvDict) : Element :=
  {| state := env_state env_dict;
     action := env_action env_dict;
     reward := env_reward env_dict;
     next_state := env_next_state env_dict;
     done := env_done env_dict;
     n_step_return := env_reward env_dict |}.

Definition set_n_step_return (v : Q) (e : Element) : Element :=
  {| state := state e;
     action := action e;
     reward := reward e;
     next_state := next_state e;
     done := done e;
     n_step_return := v |}.

(** Everything of a transition except the accumulating return. *)
Definition core (e : Element) : State * Action * Q * State * bool :=
  (state e, action e, reward e, next_state e, done e).

(** ** Buffers *)

(** The class [ReplayBuffer] is imported from
    [advantage.buffers.replay_buffers] and is not part of the sources; the
    waiting buffer of a value-gradient objective is an instance of it. *)
Module ReplayBuffer.

(** Modelled from the spec: the Transition Buffer, class [ReplayBuffer],
    is an ordered sequence of pending transitions of a given capacity. *)
Record t : Set := {
  buffer_size : Z;
  items : list Element
}.

(** Modelled from the spec: the constructor of [ReplayBuffer] yields an
    empty buffer. *)
Definition make (buffer_size : Z) : t :=
  {| buffer_size := buffer_size; items := [] |}.

(** Modelled from the spec: [len()] of [ReplayBuffer] returns the current
    window size. *)
Definition len (b : t) : nat := length (items b).

(** Modelled from the spec: the truth value of a [ReplayBuffer], as for
    every Python object with a length, is that it is non-empty. *)
Definition truthy (b : t) : bool := negb (len b =? 0)%nat.

(** Modelled from the spec: [sample(k)] of [ReplayBuffer] returns the
    current contents and does not consume them.  The batch it returns
    aliases the stored transitions (see [store_returns]). *)
Definition sample (b : t) (k : nat) : list Element := items b.

(** Modelled from the spec: [push(transition)] of [ReplayBuffer]
    appends. *)
Definition push (e : Element) (b : t) : t :=
  {| buffer_size := buffer_size b; items := items b ++ [e] |}.

(** Modelled from the spec: [clear()] of [ReplayBuffer] empties the
    buffer. *)
Definition clear (b : t) : t :=
  {| buffer_size := buffer_size b; items := [] |}.

(** Modelled from the spec: the sampled batch of [ReplayBuffer] is a view
    of the buffer, so an in-place update of its [n_step_return] column
    writes the new column back into the stored transitions. *)
Fixpoint write_returns (els : list Element) (col : list Q) : list Element :=
  match els, col with
  | e :: els', v :: col' => set_n_step_return v e :: write_returns els' col'
  | _, _ => els
  end.

Definition store_returns (col : list Q) (b : t) : t :=
  {| buffer_size := buffer_size b; items := write_returns (items b) col |}.

End ReplayBuffer.

Definition Batch : Set := list Element.

(** The Replay Store is an instance of the same absent class, used as an
    external collaborator. *)
Module ReplayStore.

(** Modelled from the spec: the Replay Store, class [ReplayBuffer], has an
    opaque eviction and sampling policy.  It is observed through the
    sequence of arguments handed to its [push]; its sampling is an
    arbitrary function of what it has received. *)
Record t : Type := {
  pushed : list Batch;
  sampler : list Batch -> Z -> Z -> list Batch
}.

(** Modelled from the spec: [push(transition_or_batch)] of the Replay
    Store accepts one or more transitions at a time. *)
Definition push (batch : Batch) (s : t) : t :=
  {| pushed := pushed s ++ [batch]; sampler := sampler s |}.

(** Modelled from the spec: [sample_batches(batch_size, iterations)] of
    the Replay Store returns a sequence of batches. *)
Definition sample_batches (s : t) (batch_size iterations : Z) : list Batch :=
  sampler s (pushed s) batch_size iterations.

End ReplayStore.

(** ** Approximators and the loss graph *)

(** Symbolic tensors built by [set_up]. *)
Inductive Tensor : Set :=
| Placeholder (name : string)
| FuncOutput (name_scope : string)
| Const (c : Q)
| Add (a b : Tensor)
| Sub (a b : Tensor)
| Mul (a b : Tensor)
| Square (a : Tensor)
| ReduceMean (a : Tensor) (name : string).

(** A column of a batch handed to a feed dictionary. *)
Inductive Column : Set :=
| States (c : list State)
| Actions (c : list Action)
| Reals (c : list Q).

Definition Session : Set := unit.

(** The concrete approximator classes are not part of the sources (only
    the abstract [DeepApproximator] interface is). *)
Module Approximator.

(** Modelled from the spec: the approximator is an external collaborator
    with operations [set_up], [add_target_placeholder], [minimize] and
    [update]; it is observed through the calls it receives, none of which
    raises. *)
Record t : Set := {
  name_scope : string;
  set_up_calls : nat;
  target_placeholders : list Tensor;
  minimized : list Tensor;
  updates : list (list (string * Column) * list (string * Column))
}.

Definition func (f : t) : Tensor := FuncOutput (name_scope f).

Definition set_up (session : Session) : Py t unit :=
  modify (fun f =>
    {| name_scope := name_scope f;
       set_up_calls := S (set_up_calls f);
       target_placeholders := target_placeholders f;
       minimized := minimized f;
       updates := updates f |}).

Definition add_target_placeholder (plh : Tensor) : Py t unit :=
  modify (fun f =>
    {| name_scope := name_scope f;
       set_up_calls := set_up_calls f;
       target_placeholders := target_placeholders f ++ [plh];
       minimized := minimized f;
       updates := updates f |}).

Definition minimize (objective : Tensor) : Py t unit :=
  modify (fun f =>
    {| name_scope := name_scope f;
       set_up_calls := set_up_calls f;
       target_placeholders := target_placeholders f;
       minimized := minimized f ++ [objective];
       updates := updates f |}).

Definition update (session : Session)
  (inputs targets : list (string * Column)) : Py t unit :=
  modify (fun f =>
    {| name_scope := name_scope f;
       set_up_calls := set_up_calls f;
       target_placeholders := target_placeholders f;
       minimized := minimized f;
       updates := updates f ++ [(inputs, targets)] |}).

End Approximator.

(** The bootstrap function is injected at construction. *)
Module Bootstrap.

(** Modelled from the spec: the bootstrap function is a callable
    [next_state -> scalar estimate]; it is observed through the arguments
    of its calls and, when it is itself an approximator, through its
    [set_up] calls. *)
Record t : Type := {
  estimate : list State -> Q;
  calls : list (list State);
  set_up_calls : nat
}.

Definition call (next_states : list State) : Py t Q :=
  fun b =>
    (inr (estimate b next_states),
     {| estimate := estimate b;
        calls := calls b ++ [next_states];
        set_up_calls := set_up_calls b |}).

Definition set_up (session : Session) : Py t unit :=
  modify (fun b =>
    {| estimate := estimate b;
       calls := calls b;
       set_up_calls := S (set_up_calls b) |}).

End Bootstrap.

(** ** class Objective *)

Module Objective.

Record t : Type := {
  _scope : string;
  _replay_buffer : ReplayStore.t;
  _func : Approximator.t;
  _iterations_of_optimization : Z;
  _objective : option Tensor;
  _improvement_steps : Z;
  regularizers : option (list Tensor)
}.

Definition improvement_steps (self : t) : Z := _improvement_steps self.

Definition with_replay_buffer (rb : ReplayStore.t) (self : t) : t :=
  {| _scope := _scope self;
     _replay_buffer := rb;
     _func := _func self;
     _iterations_of_optimization := _iterations_of_optimization self;
     _objective := _objective self;
     _improvement_steps := _improvement_steps self;
     regularizers := regularizers self |}.

Definition with_func (f : Approximator.t) (self : t) : t :=
  {| _scope := _scope self;
     _replay_buffer := _replay_buffer self;
     _func := f;
     _iterations_of_optimization := _iterations_of_optimization self;
     _objective := _objective self;
     _improvement_steps := _improvement_steps self;
     regularizers := regularizers self |}.

Definition with_objective (o : option Tensor) (self : t) : t :=
  {| _scope := _scope self;
     _replay_buffer := _replay_buffer self;
     _func := _func self;
     _iterations_of_optimization := _iterations_of_optimization self;
     _objective := o;
     _improvement_steps := _improvement_steps self;
     regularizers := regularizers self |}.

Definition with_improvement_steps (n : Z) (self : t) : t :=
  {| _scope := _scope self;
     _replay_buffer := _replay_buffer self;
     _func := _func self;
     _iterations_of_optimization := _iterations_of_optimization self;
     _objective := _objective self;
     _improvement_steps := n;
     regularizers := regularizers self |}.

(** Truth value of [self.regularizers]: [None] and the empty list are
    false. *)
Definition regularizers_truthy (self : t) : bool :=
  match regularizers self with
  | Some (_ :: _) => true
  | _ => false
  end.

(** Python's [sum(xs)] over tensors: [0 + x1 + x2 + ...]. *)
Definition sum (xs : list Tensor) : Tensor :=
  fold_left Add xs (Const 0).

End Objective.

(** ** class ValueGradientObjective(Objective) *)

Module ValueGradientObjective.

Record t : Type := {
  base : Objective.t;
  _discount_factor : Q;
  _steps : Z;
  _bootstrap_func : Bootstrap.t;
  _waiting_buffer : ReplayBuffer.t
}.

Definition with_base (b : Objective.t) (self : t) : t :=
  {| base := b;
     _discount_factor := _discount_factor self;
     _steps := _steps self;
     _bootstrap_func := _bootstrap_func self;
     _waiting_buffer := _waiting_buffer self |}.

Definition with_bootstrap_func (f : Bootstrap.t) (self : t) : t :=
  {| base := base self;
     _discount_factor := _discount_factor self;
     _steps := _steps self;
     _bootstrap_func := f;
     _waiting_buffer := _waiting_buffer self |}.

Definition with_waiting_buffer (w : ReplayBuffer.t) (self : t) : t :=
  {| base := base self;
     _discount_factor := _discount_factor self;
     _steps := _steps self;
     _bootstrap_func := _bootstrap_func self;
     _waiting_buffer := w |}.

(** Accessors through the base object. *)
Definition _func (self : t) : Approximator.t := Objective._func (base self).

Definition _replay_buffer (self : t) : ReplayStore.t :=
  Objective._replay_buffer (base self).

Definition improvement_steps (self : t) : Z :=
  Objective.improvement_steps (base self).

Definition on_func {A} (c : Py Approximator.t A) : Py t A :=
  zoom base with_base (zoom Objective._func Objective.with_func c).

Definition set_objective (o : Tensor) : Py t unit :=
  modify (fun self => with_base (Objective.with_objective (Some o) (base self)) self).

(** [_add_reward]: the factor array is
    [np.power(discount, np.arange(1, buffer_len)[-1:])], and
    [elements.n_step_return += discounted] updates the pending transitions
    through the sampled view. *)
Definition _add_reward (reward : Q) : Py t unit :=
  (self <- get ;;
   let buffer_len := ReplayBuffer.len (_waiting_buffer self) in
   let elements := ReplayBuffer.sample (_waiting_buffer self) buffer_len in
   let factors :=
     np.power (_discount_factor self)
              (np.last_slice (np.arange 1 (Z.of_nat buffer_len))) in
   let discounted := np.mul factors reward in
   col <- lift (np.iadd (map n_step_return elements) discounted) ;;
   modify (with_waiting_buffer
             (ReplayBuffer.store_returns col (_waiting_buffer self))))%py.

(** [set_up]: builds [(1/2) * square(bellman_plh - func)], adds the
    regularizers when there are any, takes the mean and hands it to
    [minimize]. *)
Definition set_up (session : Session) : Py t unit :=
  (on_func (Approximator.set_up session) ;;
   let bellman_plh := Placeholder "bellman_target_plh"%string in
   on_func (Approximator.add_target_placeholder bellman_plh) ;;
   self <- get ;;
   let objective :=
     Mul (Const (1 # 2)) (Square (Sub bellman_plh (Approximator.func (_func self)))) in
   let objective :=
     if Objective.regularizers_truthy (base self)
     then Add objective
              (Objective.sum (match Objective.regularizers (base self) with
                              | Some rs => rs
                              | None => []
                              end))
     else objective in
   let objective := ReduceMean objective "objective"%string in
   set_objective objective ;;
   on_func (Approximator.minimize objective))%py.

(** [push]: fold the incoming reward when something is pending, then
    either flush ([done], or [buffer_len == steps] with the length read
    before any insertion) or append the incoming element. *)
Definition push (env_dict : EnvDict) : Py t unit :=
  (let element := make_element env_dict in
   self <- get ;;
   (if ReplayBuffer.truthy (_waiting_buffer self)
    then _add_reward (reward element)
    else ret tt) ;;
   self <- get ;;
   let buffer_len := ReplayBuffer.len (_waiting_buffer self) in
   if done element || (Z.of_nat buffer_len =? _steps self)%Z
   then
     (if negb (done element)
      then
        v <- zoom _bootstrap_func with_bootstrap_func
               (Bootstrap.call [next_state element]) ;;
        _add_reward v
      else ret tt) ;;
     self <- get ;;
     modify (fun s =>
       with_base
         (Objective.with_replay_buffer
            (ReplayStore.push
               (ReplayBuffer.sample (_waiting_buffer self) buffer_len)
               (_replay_buffer self))
            (base s)) s) ;;
     modify (fun s => with_waiting_buffer (ReplayBuffer.clear (_waiting_buffer s)) s)
   else
     modify (fun s =>
       with_waiting_buffer (ReplayBuffer.push element (_waiting_buffer s)) s))%py.

(** [optimize]: one [update] per sampled batch, then
    [_improvement_steps += 1]. *)
Definition optimize (session : Session) (batch_size : Z) : Py t unit :=
  (self <- get ;;
   for_each
     (ReplayStore.sample_batches (_replay_buffer self) batch_size
        (Objective._iterations_of_optimization (base self)))
     (fun batch =>
        on_func (Approximator.update session
                   [("state"%string, States (map state batch))]
                   [("bellman_target_plh"%string, Reals (map n_step_return batch))])) ;;
   modify (fun s =>
     with_base
       (Objective.with_improvement_steps
          (Objective._improvement_steps (base s) + 1)%Z (base s)) s))%py.

End ValueGradientObjective.

(** ** class DecoupledValueGradientObjective(ValueGradientObjective) *)

Module DecoupledValueGradientObjective.

(** [_copy] is [None] until [set_up] builds the copy operation; afterwards
    it is observed through the number of times it has been run. *)
Record t : Type := {
  super : ValueGradientObjective.t;
  _copy : option nat;
  _sync_period : Z;
  _optimization_calls : Z
}.

Definition with_super (v : ValueGradientObjective.t) (self : t) : t :=
  {| super := v;
     _copy := _copy self;
     _sync_period := _sync_period self;
     _optimization_calls := _optimization_calls self |}.

Definition with_copy (c : option nat) (self : t) : t :=
  {| super := super self;
     _copy := c;
     _sync_period := _sync_period self;
     _optimization_calls := _optimization_calls self |}.

Definition improvement_steps (self : t) : Z :=
  ValueGradientObjective.improvement_steps (super self).

(** Number of [sync()] invocations that ran the copy operation. *)
Definition sync_count (self : t) : nat :=
  match _copy self with
  | Some n => n
  | None => 0
  end.

Definition set_up (session : Session) : Py t unit :=
  (zoom super with_super (ValueGradientObjective.set_up session) ;;
   zoom super with_super
     (zoom ValueGradientObjective._bootstrap_func
           ValueGradientObjective.with_bootstrap_func
           (Bootstrap.set_up session)) ;;
   modify (with_copy (Some 0%nat)))%py.

(** [self._copy()]; calling [None] raises [TypeError]. *)
Definition sync : Py t unit :=
  (self <- get ;;
   match _copy self with
   | Some n => modify (with_copy (Some (S n)))
   | None => raise TypeError
   end)%py.

(** [optimize]: the inherited [optimize], then [sync()] when
    [_optimization_calls % _sync_period == 0] and
    [_improvement_steps -= 1] otherwise.  Nothing assigns
    [_optimization_calls]. *)
Definition optimize (session : Session) (batch_size : Z) : Py t unit :=
  (zoom super with_super (ValueGradientObjective.optimize session batch_size) ;;
   self <- get ;;
   m <- lift (py_mod (_optimization_calls self) (_sync_period self)) ;;
   if (m =? 0)%Z
   then sync
   else
     modify (fun s =>
       with_super
         (ValueGradientObjective.with_base
            (Objective.with_improvement_steps
               (ValueGradientObjective.improvement_steps (super s) - 1)%Z
               (ValueGradientObjective.base (super s)))
            (super s)) s))%py.

End DecoupledValueGradientObjective.

(** ** class PolicyGradientObjective(Objective) *)

Module PolicyGradientObjective.

Record t : Type := {
  base : Objective.t;
  _policy_return : Tensor;
  _from_gradient : bool;
  _action_taken_plh : option Tensor;
  _next_state_plh : option Tensor
}.

Definition with_base (b : Objective.t) (self : t) : t :=
  {| base := b;
     _policy_return := _policy_return self;
     _from_gradient := _from_gradient self;
     _action_taken_plh := _action_taken_plh self;
     _next_state_plh := _next_state_plh self |}.

Definition improvement_steps (self : t) : Z :=
  Objective.improvement_steps (base self).

Definition on_func {A} (c : Py Approximator.t A) : Py t A :=
  zoom base with_base (zoom Objective._func Objective.with_func c).

(** A single transition handed to the store is logged as a batch of one. *)
Definition push (env_dict : EnvDict) : Py t unit :=
  (let element := make_element env_dict in
   modify (fun s =>
     with_base
       (Objective.with_replay_buffer
          (ReplayStore.push [element] (Objective._replay_buffer (base s)))
          (base s)) s))%py.

Definition optimize (session : Session) (batch_size : Z) : Py t unit :=
  (self <- get ;;
   for_each
     (ReplayStore.sample_batches (Objective._replay_buffer (base self)) batch_size
        (Objective._iterations_of_optimization (base self)))
     (fun batch =>
        on_func (Approximator.update session
                   [("state"%string, States (map state batch))]
                   [("action_taken"%string, Actions (map action batch));
                    ("next_state"%string, States (map next_state batch))])) ;;
   modify (fun s =>
     with_base
       (Objective.with_improvement_steps
          (Objective._improvement_steps (base s) + 1)%Z (base s)) s))%py.

End PolicyGradientObjective.

(** ** Construction

    [__init__] methods run on the attribute dictionary of the instance
    being built.  A call binds its positional arguments to the parameter
    list of the callee; a surplus or missing argument raises [TypeError]
    before the body runs. *)

Module Constructors.

Inductive PyVal : Type :=
| VNone
| VBool (b : bool)
| VInt (n : Z)
| VFloat (q : Q)
| VStr (s : string)
| VTensor (x : Tensor)
| VSelf
| VElementCls
| VStore (b : ReplayStore.t)
| VWaiting (b : ReplayBuffer.t)
| VApprox (f : Approximator.t)
| VCallable (f : Bootstrap.t).

Definition Instance : Type := list (string * PyVal).

Definition setattr (name : string) (v : PyVal) : Py Instance unit :=
  modify (fun d => (name, v) :: d).

Fixpoint getattr (name : string) (d : Instance) : option PyVal :=
  match d with
  | [] => None
  | (k, v) :: rest => if String.eqb k name then Some v else getattr name rest
  end.

(** [replay_buffer.element_cls] *)
Definition element_cls (replay_buffer : PyVal) : PyExc + PyVal :=
  match replay_buffer with
  | VStore _ | VWaiting _ => inr VElementCls
  | _ => inl AttributeError
  end.

(** [Cls(...)]: the instance is returned only if [__init__] returns. *)
Definition instantiate (init : Py Instance unit) : PyExc + Instance :=
  match init [] with
  | (inr _, self) => inr self
  | (inl e, _) => inl e
  end.

(** [Objective.__init__(self, scope, replay_buffer, func,
    iteration_of_optimization)]; [args] are the arguments after the bound
    [self]. *)
Definition Objective__init__ (args : list PyVal) : Py Instance unit :=
  match args with
  | [scope; replay_buffer; func; iteration_of_optimization] =>
      (setattr "_scope" scope ;;
       setattr "_replay_buffer" replay_buffer ;;
       cls <- lift (element_cls replay_buffer) ;;
       setattr "_element_cls" cls ;;
       setattr "_func" func ;;
       setattr "_iterations_of_optimization" iteration_of_optimization ;;
       setattr "_objective" VNone ;;
       setattr "_improvement_steps" (VInt 0) ;;
       setattr "regularizers" VNone)%py
  | _ => raise TypeError
  end.

(** Modelled from the spec: the constructor of the absent [ReplayBuffer]
    class yields an empty buffer of the given capacity. *)
Definition ReplayBuffer_new (cls : PyVal) (buffer_size : Z) : PyVal :=
  VWaiting (ReplayBuffer.make buffer_size).

(** [super().__init__(self, scope, replay_buffer, value_func,
    iteration_of_optimization)]: five explicit arguments. *)
Definition ValueGradientObjective__init__
  (scope : string) (replay_buffer : ReplayStore.t) (discount_factor : Q)
  (value_func : Approximator.t) (iteration_of_optimization : Z) (steps : Z)
  (bootstrap_func : PyVal) : Py Instance unit :=
  (setattr "_discount_factor" (VFloat discount_factor) ;;
   setattr "_steps" (VInt steps) ;;
   setattr "_bootstrap_func" bootstrap_func ;;
   cls <- lift (element_cls (VStore replay_buffer)) ;;
   setattr "_waiting_buffer" (ReplayBuffer_new cls steps) ;;
   Objective__init__ [VSelf;
                      VStr scope;
                      VStore replay_buffer;
                      VApprox value_func;
                      VInt iteration_of_optimization])%py.

(** Modelled from the spec: [ScopeWrap.build] is not part of the sources;
    it names a separate parameter namespace under [scope]. *)
Definition ScopeWrap_build (scope name : string) : string :=
  (scope ++ "/" ++ name)%string.

(** Modelled from the spec: [copy_obj] is not part of the sources; it
    clones the approximator's architecture into the given namespace. *)
Definition copy_obj (f : Approximator.t) (scope : string) : Approximator.t :=
  {| Approximator.name_scope := scope;
     Approximator.set_up_calls := 0;
     Approximator.target_placeholders := [];
     Approximator.minimized := [];
     Approximator.updates := [] |}.

Definition DecoupledValueGradientObjective__init__
  (scope : string) (replay_buffer : ReplayStore.t) (discount_factor : Q)
  (value_func : Approximator.t) (iteration_of_optimization : Z) (steps : Z)
  (sync_period : Z) : Py Instance unit :=
  (setattr "_copy" VNone ;;
   setattr "_sync_period" (VInt sync_period) ;;
   setattr "_optimization_calls" (VInt 0) ;;
   let bootstrap_scope :=
     ScopeWrap_build scope ("target/" ++ Approximator.name_scope value_func) in
   let bootstrap_func := copy_obj value_func bootstrap_scope in
   ValueGradientObjective__init__ scope replay_buffer discount_factor
     value_func iteration_of_optimization steps (VApprox bootstrap_func))%py.

Definition PolicyGradientObjective__init__
  (scope : string) (replay_buffer : ReplayStore.t)
  (policy_func : Approximator.t) (policy_return : Tensor)
  (iteration_of_optimization : Z) (from_gradient : bool)
  : Py Instance unit :=
  (setattr "_policy_return" (VTensor policy_return) ;;
   setattr "_replay_buffer" (VStore replay_buffer) ;;
   setattr "_from_gradient" (VBool from_gradient) ;;
   setattr "_action_taken_plh" VNone ;;
   setattr "_next_state_plh" VNone ;;
   Objective__init__ [VSelf;
                      VStr scope;
                      VStore replay_buffer;
                      VApprox policy_func;
                      VInt iteration_of_optimization])%py.

End Constructors.

(** ** Construction from an arbitrary argument list

    The constructors as Python runs them on any positional argument
    list: the arguments are bound to the parameters ([TypeError] if their
    number does not fit), and the statements before [super().__init__]
    read attributes of the arguments, which raises [AttributeError] on an
    argument that lacks them. *)

Module Calls.

(** [value_func.name_scope]: only an approximator has it. *)
Definition name_scope (value_func : Constructors.PyVal) : PyExc + string :=
  match value_func with
  | Constructors.VApprox f => inr (Approximator.name_scope f)
  | _ => inl AttributeError
  end.

(** One possible [ReplayBuffer] constructor: an empty buffer for an
    integer capacity, [TypeError] otherwise. *)
Definition sample_ReplayBuffer (cls steps : Constructors.PyVal)
  : PyExc + Constructors.PyVal :=
  match steps with
  | Constructors.VInt n => inr (Constructors.ReplayBuffer_new cls n)
  | _ => inl TypeError
  end.

(** One possible [ScopeWrap.build]: a nested name for a string scope. *)
Definition sample_ScopeWrap_build (scope : Constructors.PyVal) (name : string)
  : PyExc + Constructors.PyVal :=
  match scope with
  | Constructors.VStr s => inr (Constructors.VStr (Constructors.ScopeWrap_build s name))
  | _ => inl TypeError
  end.

(** One possible [copy_obj]: a clone under a string scope. *)
Definition sample_copy_obj (f : Approximator.t) (scope : Constructors.PyVal)
  : PyExc + Constructors.PyVal :=
  match scope with
  | Constructors.VStr s => inr (Constructors.VApprox (Constructors.copy_obj f s))
  | _ => inl TypeError
  end.

Section WithAbsentCallables.

(** [ReplayBuffer(element_cls, steps)], [ScopeWrap.build(scope, name)] and
    the method [copy_obj] of an approximator are not part of the sources:
    each may return a value or raise. *)
Variable ReplayBuffer_call
  : Constructors.PyVal -> Constructors.PyVal -> PyExc + Constructors.PyVal.
Variable ScopeWrap_build_call
  : Constructors.PyVal -> string -> PyExc + Constructors.PyVal.
Variable copy_obj_call
  : Approximator.t -> Constructors.PyVal -> PyExc + Constructors.PyVal.

(** [value_func.copy_obj(bootstrap_scope)] *)
Definition copy_obj (value_func bootstrap_scope : Constructors.PyVal)
  : PyExc + Constructors.PyVal :=
  match value_func with
  | Constructors.VApprox f => copy_obj_call f bootstrap_scope
  | _ => inl AttributeError
  end.

(** [ValueGradientObjective.__init__(self, scope, replay_buffer,
    discount_factor, value_func, iteration_of_optimization, steps,
    bootstrap_func)] *)
Definition ValueGradientObjective__init__ (args : list Constructors.PyVal)
  : Py Constructors.Instance unit :=
  match args with
  | [scope; replay_buffer; discount_factor; value_func;
     iteration_of_optimization; steps; bootstrap_func] =>
      (Constructors.setattr "_discount_factor" discount_factor ;;
       Constructors.setattr "_steps" steps ;;
       Constructors.setattr "_bootstrap_func" bootstrap_func ;;
       cls <- lift (Constructors.element_cls replay_buffer) ;;
       waiting <- lift (ReplayBuffer_call cls steps) ;;
       Constructors.setattr "_waiting_buffer" waiting ;;
       Constructors.Objective__init__
         [Constructors.VSelf; scope; replay_buffer; value_func;
          iteration_of_optimization])%py
  | _ => raise TypeError
  end.

(** [DecoupledValueGradientObjective.__init__(self, scope, replay_buffer,
    discount_factor, value_func, iteration_of_optimization, steps,
    sync_period)] *)
Definition DecoupledValueGradientObjective__init__
  (args : list Constructors.PyVal) : Py Constructors.Instance unit :=
  match args with
  | [scope; replay_buffer; discount_factor; value_func;
     iteration_of_optimization; steps; sync_period] =>
      (Constructors.setattr "_copy" Constructors.VNone ;;
       Constructors.setattr "_sync_period" sync_period ;;
       Constructors.setattr "_optimization_calls" (Constructors.VInt 0) ;;
       name <- lift (name_scope value_func) ;;
       bootstrap_scope <-
         lift (ScopeWrap_build_call scope ("target/" ++ name)%string) ;;
       bootstrap_func <- lift (copy_obj value_func bootstrap_scope) ;;
       ValueGradientObjective__init__
         [scope; replay_buffer; discount_factor; value_func;
          iteration_of_optimization; steps; bootstrap_func])%py
  | _ => raise TypeError
  end.

(** The body of [PolicyGradientObjective.__init__]. *)
Definition PolicyGradientObjective_body
  (scope replay_buffer policy_func policy_return iteration_of_optimization
   from_gradient : Constructors.PyVal) : Py Constructors.Instance unit :=
  (Constructors.setattr "_policy_return" policy_return ;;
   Constructors.setattr "_replay_buffer" replay_buffer ;;
   Constructors.setattr "_from_gradient" from_gradient ;;
   Constructors.setattr "_action_taken_plh" Constructors.VNone ;;
   Constructors.setattr "_next_state_plh" Constructors.VNone ;;
   Constructors.Objective__init__
     [Constructors.VSelf; scope; replay_buffer; policy_func;
      iteration_of_optimization])%py.

(** [PolicyGradientObjective.__init__(self, scope, replay_buffer,
    policy_func, policy_return, iteration_of_optimization,
    from_gradient=False)] *)
Definition PolicyGradientObjective__init__ (args : list Constructors.PyVal)
  : Py Constructors.Instance unit :=
  match args with
  | [scope; replay_buffer; policy_func; policy_return;
     iteration_of_optimization] =>
      PolicyGradientObjective_body scope replay_buffer policy_func
        policy_return iteration_of_optimization (Constructors.VBool false)
  | [scope; replay_buffer; policy_func; policy_return;
     iteration_of_optimization; from_gradient] =>
      PolicyGradientObjective_body scope replay_buffer policy_func
        policy_return iteration_of_optimization from_gradient
  | _ => raise TypeError
  end.

End WithAbsentCallables.

End Calls.

(** ** Observations, call sequences and sample objects *)

(** Add [k] to the accumulated return of a transition. *)
Definition bump (k : Q) (e : Element) : Element :=
  set_n_step_return (n_step_return e + k) e.

(** The factor [_add_reward] computes at buffer length [len >= 2]. *)
Definition fold_factor (discount : Q) (len : nat) : Q :=
  Qpower discount (Z.of_nat len - 1).

(** The receiver after every pending return has been shifted by [k]. *)
Definition refold (k : Q) (self : ValueGradientObjective.t)
  : ValueGradientObjective.t :=
  ValueGradientObjective.with_waiting_buffer
    {| ReplayBuffer.buffer_size :=
         ReplayBuffer.buffer_size (ValueGradientObjective._waiting_buffer self);
       ReplayBuffer.items :=
         map (bump k)
             (ReplayBuffer.items (ValueGradientObjective._waiting_buffer self)) |}
    self.

(** The receiver after [bootstrap_func] has been called on [next_states]. *)
Definition called (next_states : list State) (self : ValueGradientObjective.t)
  : ValueGradientObjective.t :=
  ValueGradientObjective.with_bootstrap_func
    {| Bootstrap.estimate :=
         Bootstrap.estimate (ValueGradientObjective._bootstrap_func self);
       Bootstrap.calls :=
         Bootstrap.calls (ValueGradientObjective._bootstrap_func self)
         ++ [next_states];
       Bootstrap.set_up_calls :=
         Bootstrap.set_up_calls (ValueGradientObjective._bootstrap_func self) |}
    self.

(** The receiver after the waiting buffer has been handed to the Replay
    Store and cleared. *)
Definition flushed (self : ValueGradientObjective.t) : ValueGradientObjective.t :=
  ValueGradientObjective.with_waiting_buffer
    (ReplayBuffer.clear (ValueGradientObjective._waiting_buffer self))
    (ValueGradientObjective.with_base
       (Objective.with_replay_buffer
          (ReplayStore.push
             (ReplayBuffer.items (ValueGradientObjective._waiting_buffer self))
             (ValueGradientObjective._replay_buffer self))
          (ValueGradientObjective.base self))
       self).

Definition waiting_len (self : ValueGradientObjective.t) : nat :=
  ReplayBuffer.len (ValueGradientObjective._waiting_buffer self).

Definition waiting_items (self : ValueGradientObjective.t) : list Element :=
  ReplayBuffer.items (ValueGradientObjective._waiting_buffer self).

Definition store_log (self : ValueGradientObjective.t) : list Batch :=
  ReplayStore.pushed (ValueGradientObjective._replay_buffer self).

Definition bootstrap_log (self : ValueGradientObjective.t) : list (list State) :=
  Bootstrap.calls (ValueGradientObjective._bootstrap_func self).

(** Ingest a stream of environment samples; the first exception stops
    the stream. *)
Definition ingest_all (envs : list EnvDict) : Py ValueGradientObjective.t unit :=
  for_each envs ValueGradientObjective.push.

(** [for _ in range(n): c] *)
Fixpoint repeat_call {S} (n : nat) (c : Py S unit) : Py S unit :=
  match n with
  | O => ret tt
  | S n' => (c ;; repeat_call n' c)%py
  end.

Definition sample_env (r : Q) (d : bool) : EnvDict :=
  {| env_state := [0%Z];
     env_action := 0%Z;
     env_reward := r;
     env_next_state := [1%Z];
     env_done := d |}.

Definition sample_store : ReplayStore.t :=
  {| ReplayStore.pushed := [];
     ReplayStore.sampler := fun log _ iterations =>
       repeat (concat log) (Z.to_nat iterations) |}.

Definition sample_func : Approximator.t :=
  {| Approximator.name_scope := "value";
     Approximator.set_up_calls := 0;
     Approximator.target_placeholders := [];
     Approximator.minimized := [];
     Approximator.updates := [] |}.

Definition sample_base : Objective.t :=
  {| Objective._scope := "agent";
     Objective._replay_buffer := sample_store;
     Objective._func := sample_func;
     Objective._iterations_of_optimization := 2;
     Objective._objective := None;
     Objective._improvement_steps := 0;
     Objective.regularizers := None |}.

Definition sample_bootstrap : Bootstrap.t :=
  {| Bootstrap.estimate := fun _ => 5;
     Bootstrap.calls := [];
     Bootstrap.set_up_calls := 0 |}.

(** A value-gradient objective holding [pending] in its waiting buffer. *)
Definition sample_vgo (discount : Q) (steps : Z) (pending : list Element)
  : ValueGradientObjective.t :=
  {| ValueGradientObjective.base := sample_base;
     ValueGradientObjective._discount_factor := discount;
     ValueGradientObjective._steps := steps;
     ValueGradientObjective._bootstrap_func := sample_bootstrap;
     ValueGradientObjective._waiting_buffer :=
       {| ReplayBuffer.buffer_size := steps; ReplayBuffer.items := pending |} |}.

(** A decoupled objective with the attributes [__init__] assigns:
    [_copy = None] and [_optimization_calls = 0]. *)
Definition sample_decoupled (sync_period : Z) : DecoupledValueGradientObjective.t :=
  {| DecoupledValueGradientObjective.super := sample_vgo (99 # 100) 3 [];
     DecoupledValueGradientObjective._copy := None;
     DecoupledValueGradientObjective._sync_period := sync_period;
     DecoupledValueGradientObjective._optimization_calls := 0 |}.

Definition approximator_fed
  (entries : list (list (string * Column) * list (string * Column)))
  (f : Approximator.t) : Approximator.t :=
  {| Approximator.name_scope := Approximator.name_scope f;
     Approximator.set_up_calls := Approximator.set_up_calls f;
     Approximator.target_placeholders := Approximator.target_placeholders f;
     Approximator.minimized := Approximator.minimized f;
     Approximator.updates := Approximator.updates f ++ entries |}.

Definition objective_fed
  (entries : list (list (string * Column) * list (string * Column)))
  (o : Objective.t) : Objective.t :=
  Objective.with_func (approximator_fed entries (Objective._func o)) o.

Definition objective_improved (o : Objective.t) : Objective.t :=
  Objective.with_improvement_steps (Objective._improvement_steps o + 1)%Z o.

Definition value_feed (batch : Batch)
  : list (string * Column) * list (string * Column) :=
  ([("state"%string, States (map state batch))],
   [("bellman_target_plh"%string, Reals (map n_step_return batch))]).

Definition policy_feed (batch : Batch)
  : list (string * Column) * list (string * Column) :=
  ([("state"%string, States (map state batch))],
   [("action_taken"%string, Actions (map action batch));
    ("next_state"%string, States (map next_state batch))]).


(** ** Callers of [push] *)

(** The objective after each sample of [envs] has been handed to [push]
    in turn by a caller that goes on after an exception; a raising [push]
    leaves behind whatever it had mutated. *)
Fixpoint push_each (envs : list EnvDict) (self : ValueGradientObjective.t)
  : ValueGradientObjective.t :=
  match envs with
  | [] => self
  | env_dict :: rest =>
      push_each rest (snd (ValueGradientObjective.push env_dict self))
  end.

(** ** [PolicyGradientObjective]: the lazily created placeholders *)

Module PolicyPlaceholders.

(** The truth value of a [tf.Tensor]: [Tensor.__bool__] raises
    [TypeError] (a graph tensor cannot be used as a Python bool). *)
Definition tensor_bool (t : Tensor) : PyExc + bool := inl TypeError.

(** [not x] for an attribute holding [None] or a tensor. *)
Definition py_not (x : option Tensor) : PyExc + bool :=
  match x with
  | None => inr true
  | Some t =>
      match tensor_bool t with
      | inl e => inl e
      | inr b => inr (negb b)
      end
  end.

Definition with_action_taken_plh (p : option Tensor)
  (self : PolicyGradientObjective.t) : PolicyGradientObjective.t :=
  {| PolicyGradientObjective.base := PolicyGradientObjective.base self;
     PolicyGradientObjective._policy_return :=
       PolicyGradientObjective._policy_return self;
     PolicyGradientObjective._from_gradient :=
       PolicyGradientObjective._from_gradient self;
     PolicyGradientObjective._action_taken_plh := p;
     PolicyGradientObjective._next_state_plh :=
       PolicyGradientObjective._next_state_plh self |}.

Definition with_next_state_plh (p : option Tensor)
  (self : PolicyGradientObjective.t) : PolicyGradientObjective.t :=
  {| PolicyGradientObjective.base := PolicyGradientObjective.base self;
     PolicyGradientObjective._policy_return :=
       PolicyGradientObjective._policy_return self;
     PolicyGradientObjective._from_gradient :=
       PolicyGradientObjective._from_gradient self;
     PolicyGradientObjective._action_taken_plh :=
       PolicyGradientObjective._action_taken_plh self;
     PolicyGradientObjective._next_state_plh := p |}.

(** [action_taken_plh(action_shape)]: guarded by
    [if not self._action_taken_plh].  A [Placeholder] records its name;
    the shape [[None, action_shape]] is not represented. *)
Definition action_taken_plh (action_shape : option Z)
  : Py PolicyGradientObjective.t (option Tensor) :=
  (self <- get ;;
   absent <- lift (py_not (PolicyGradientObjective._action_taken_plh self)) ;;
   (if absent : bool
    then
      let plh := Placeholder "action_taken" in
      modify (with_action_taken_plh (Some plh)) ;;
      PolicyGradientObjective.on_func (Approximator.add_target_placeholder plh)
    else ret tt) ;;
   self <- get ;;
   ret (PolicyGradientObjective._action_taken_plh self))%py.

(** [next_state_plh(state_shape)]: guarded by
    [if not self._next_state_plh]. *)
Definition next_state_plh (state_shape : option Z)
  : Py PolicyGradientObjective.t (option Tensor) :=
  (self <- get ;;
   absent <- lift (py_not (PolicyGradientObjective._next_state_plh self)) ;;
   (if absent : bool
    then
      let plh := Placeholder "next_state" in
      modify (with_next_state_plh (Some plh)) ;;
      PolicyGradientObjective.on_func (Approximator.add_target_placeholder plh)
    else ret tt) ;;
   self <- get ;;
   ret (PolicyGradientObjective._next_state_plh self))%py.

End PolicyPlaceholders.

(** ** [approximators/base_approximators.py]: the output layers

    The functions of this file only call TensorFlow operations.  What is
    modelled is Python's binding of positional and keyword arguments to
    the parameters of the callee, which raises [TypeError] on a surplus
    positional argument, an unknown or repeated keyword, or a required
    parameter left without a value; what an operation does with bound
    arguments is left open. *)

Module BaseApproximators.

#[local] Set Warnings "-register-all".

Inductive Arg : Type :=
| ANone
| ABool (b : bool)
| AInt (n : Z)
| ASym (name : string)
| AList (items : list Arg)
| ATuple (items : list Arg)
| ATensor (name : string)
| AOp (fn : string) (bound : list (string * Arg)).

Definition Env : Type := list (string * Arg).

(** The parameters of a callable, in order, and the defaults of the
    optional ones. *)
Record Signature : Type := {
  params : list string;
  defaults : Env
}.

Fixpoint lookup (name : string) (env : Env) : option Arg :=
  match env with
  | [] => None
  | (k, v) :: rest => if String.eqb k name then Some v else lookup name rest
  end.

Fixpoint bind_positional (ps : list string) (args : list Arg) : PyExc + Env :=
  match args, ps with
  | [], _ => inr []
  | a :: args', p :: ps' =>
      match bind_positional ps' args' with
      | inr env => inr ((p, a) :: env)
      | inl e => inl e
      end
  | _ :: _, [] => inl TypeError
  end.

Fixpoint bind_keywords (ps : list string) (env : Env) (kwargs : Env)
  : PyExc + Env :=
  match kwargs with
  | [] => inr env
  | (k, v) :: rest =>
      if negb (existsb (String.eqb k) ps) then inl TypeError
      else match lookup k env with
           | Some _ => inl TypeError
           | None => bind_keywords ps (env ++ [(k, v)]) rest
           end
  end.

Fixpoint fill_defaults (ps : list string) (dflt env : Env) : PyExc + Env :=
  match ps with
  | [] => inr []
  | p :: ps' =>
      match match lookup p env with
            | Some v => Some v
            | None => lookup p dflt
            end with
      | None => inl TypeError
      | Some v =>
          match fill_defaults ps' dflt env with
          | inr rest => inr ((p, v) :: rest)
          | inl e => inl e
          end
      end
  end.

Definition bind_call (sig : Signature) (args : list Arg) (kwargs : Env)
  : PyExc + Env :=
  match bind_positional (params sig) args with
  | inl e => inl e
  | inr env =>
      match bind_keywords (params sig) env kwargs with
      | inl e => inl e
      | inr env' => fill_defaults (params sig) (defaults sig) env'
      end
  end.

Fixpoint table_get {A} (name : string) (table : list (string * A)) : option A :=
  match table with
  | [] => None
  | (k, v) :: rest => if String.eqb k name then Some v else table_get name rest
  end.

(** [tf.layers.dense(inputs, units, activation=None, use_bias=True, ...)] *)
Definition dense_signature : Signature :=
  {| params := ["inputs"; "units"; "activation"; "use_bias";
                "kernel_initializer"; "bias_initializer";
                "kernel_regularizer"; "bias_regularizer";
                "activity_regularizer"; "kernel_constraint";
                "bias_constraint"; "trainable"; "name"; "reuse"]%string;
     defaults := [("activation", ANone); ("use_bias", ABool true);
                  ("kernel_initializer", ANone);
                  ("bias_initializer", ASym "zeros_initializer");
                  ("kernel_regularizer", ANone); ("bias_regularizer", ANone);
                  ("activity_regularizer", ANone); ("kernel_constraint", ANone);
                  ("bias_constraint", ANone); ("trainable", ABool true);
                  ("name", ANone); ("reuse", ANone)]%string |}.

(** [tf.nn.softmax(logits, axis=None, name=None, dim=None)] *)
Definition softmax_signature : Signature :=
  {| params := ["logits"; "axis"; "name"; "dim"]%string;
     defaults := [("axis", ANone); ("name", ANone); ("dim", ANone)]%string |}.

(** [tf.nn.sigmoid(x, name=None)] *)
Definition sigmoid_signature : Signature :=
  {| params := ["x"; "name"]%string;
     defaults := [("name", ANone)]%string |}.

(** [tf.ones(shape, dtype=tf.float32, name=None)] *)
Definition ones_signature : Signature :=
  {| params := ["shape"; "dtype"; "name"]%string;
     defaults := [("dtype", ASym "float32"); ("name", ANone)]%string |}.

(** An operation that always returns, keeping the call symbolic; one
    possible behaviour of the library. *)
Definition symbolic_op (fn : string) (bound : Env) : PyExc + Arg :=
  inr (AOp fn bound).

Section WithTensorFlow.

(** What a TensorFlow operation does once its arguments are bound is the
    library's business: [run_op fn bound] is the outcome of operation
    [fn] on the bound arguments, a value or an exception of any kind. *)
Variable run_op : string -> Env -> PyExc + Arg.

(** A call of a TensorFlow operation: Python binds the arguments to the
    signature, raising [TypeError] if they do not fit, and only then does
    the operation run. *)
Definition tf_op (fn : string) (sig : Signature) (args : list Arg) (kwargs : Env)
  : PyExc + Arg :=
  match bind_call sig args kwargs with
  | inl e => inl e
  | inr env => run_op fn env
  end.

Definition tf_layers_dense := tf_op "tf.layers.dense" dense_signature.
Definition tf_nn_softmax := tf_op "tf.nn.softmax" softmax_signature.
Definition tf_nn_sigmoid := tf_op "tf.nn.sigmoid" sigmoid_signature.
Definition tf_ones := tf_op "tf.ones" ones_signature.

(** [def multinomial_policy(tensor_inputs, axis)] *)
Definition multinomial_policy (args : list Arg) : PyExc + Arg :=
  match args with
  | [tensor_inputs; axis] =>
      tf_nn_softmax [tensor_inputs] [("axis"%string, axis)]
  | _ => inl TypeError
  end.

(** [def binomial_policy(tensor_inputs)] *)
Definition binomial_policy (args : list Arg) : PyExc + Arg :=
  match args with
  | [tensor_inputs] => tf_nn_sigmoid [tensor_inputs] []
  | _ => inl TypeError
  end.

(** [def value_function(tensor_inputs, num_actions)] *)
Definition value_function (args : list Arg) : PyExc + Arg :=
  match args with
  | [tensor_inputs; num_actions] =>
      tf_layers_dense [tensor_inputs; num_actions] []
  | _ => inl TypeError
  end.

(** [def gaussian_policy(tensor_inputs, num_actions)]: the second [dense]
    call passes the [tf.ones] tensor and two keywords only. *)
Definition gaussian_policy (args : list Arg) : PyExc + Arg :=
  match args with
  | [tensor_inputs; num_actions] =>
      match tf_layers_dense [tensor_inputs; num_actions]
              [("activation"%string, ANone)] with
      | inl e => inl e
      | inr mean =>
          match tf_ones [AList [AInt 1; num_actions]] [] with
          | inl e => inl e
          | inr ones =>
              match tf_layers_dense [ones]
                      [("activation"%string, ANone);
                       ("use_bias"%string, ABool false)] with
              | inl e => inl e
              | inr sigma => inr (ATuple [mean; sigma])
              end
          end
      end
  | _ => inl TypeError
  end.

(** The table [OUTPUTS]. *)
Definition OUTPUTS : list (string * (list Arg -> PyExc + Arg)) :=
  [("VALUE"%string, value_function);
   ("MULTINOMIAL"%string, multinomial_policy);
   ("BINOMIAL"%string, binomial_policy);
   ("GAUSSIAN"%string, gaussian_policy)].

(** The entry of [OUTPUTS] under [name] called on [args]; [None] stands
    for the [KeyError] of a name that is not in the table. *)
Definition build_output (name : string) (args : list Arg)
  : option (PyExc + Arg) :=
  match table_get name OUTPUTS with
  | Some f => Some (f args)
  | None => None
  end.

End WithTensorFlow.

End BaseApproximators.

(** * Properties *)

(** ** Return folding *)

Lemma arange_length (start stop : Z) :
  length (np.arange start stop) = Z.to_nat (stop - start).
Proof.
  unfold np.arange. now rewrite length_map, length_seq.
Qed.

Lemma last_slice_arange (len : nat) :
  (2 <= len)%nat ->
  np.last_slice (np.arange 1 (Z.of_nat len)) = [(Z.of_nat len - 1)%Z].
Proof.
  intros Hlen. unfold np.last_slice. rewrite arange_length.
  unfold np.arange.
  replace (Z.to_nat (Z.of_nat len - 1)) with (S (len - 2)) by lia.
  rewrite skipn_map, skipn_seq.
  replace (S (len - 2) - (S (len - 2) - 1))%nat with 1%nat by lia.
  cbn [seq map]. f_equal. lia.
Qed.

Lemma last_slice_arange_short (len : nat) :
  (len <= 1)%nat ->
  np.last_slice (np.arange 1 (Z.of_nat len)) = [].
Proof.
  intros Hlen. unfold np.last_slice, np.arange.
  replace (Z.to_nat (Z.of_nat len - 1)) with 0%nat by lia.
  reflexivity.
Qed.

Lemma write_returns_shift (k : Q) (els : list Element) :
  ReplayBuffer.write_returns els
    (map (fun x => x + k) (map n_step_return els)) = map (bump k) els.
Proof.
  induction els as [| e els IH]; simpl.
  - reflexivity.
  - now rewrite IH.
Qed.

Lemma bump_core (k : Q) (els : list Element) :
  map core (map (bump k) els) = map core els.
Proof.
  rewrite map_map. apply map_ext. intros e. reflexivity.
Qed.

(** At two or more pending transitions a single factor
    [discount ^ (len - 1)] is broadcast over the whole buffer. *)
Lemma add_reward_broadcast (r : Q) (self : ValueGradientObjective.t) :
  (2 <= ReplayBuffer.len (ValueGradientObjective._waiting_buffer self))%nat ->
  ValueGradientObjective._add_reward r self =
    (inr tt,
     refold (fold_factor (ValueGradientObjective._discount_factor self)
               (ReplayBuffer.len (ValueGradientObjective._waiting_buffer self))
             * r) self).
Proof.
  intros Hlen.
  unfold ValueGradientObjective._add_reward, bind, get, lift, modify.
  rewrite (last_slice_arange _ Hlen).
  unfold ReplayBuffer.sample, np.power, np.mul, np.iadd.
  unfold ReplayBuffer.len in *.
  cbn [map length]. rewrite length_map.
  destruct (Nat.eqb_spec 1 (length (ReplayBuffer.items
              (ValueGradientObjective._waiting_buffer self)))) as [E | _];
    [lia |].
  unfold refold, ReplayBuffer.store_returns, fold_factor.
  now rewrite write_returns_shift.
Qed.

(** At exactly one pending transition the factor array is empty and the
    in-place addition raises; the buffer is left as it was. *)
Lemma add_reward_single (r : Q) (self : ValueGradientObjective.t) :
  ReplayBuffer.len (ValueGradientObjective._waiting_buffer self) = 1%nat ->
  ValueGradientObjective._add_reward r self = (inl ValueError, self).
Proof.
  intros Hlen.
  unfold ValueGradientObjective._add_reward, bind, get, lift, modify.
  rewrite last_slice_arange_short by lia.
  unfold ReplayBuffer.sample, np.iadd. simpl.
  unfold ReplayBuffer.len in Hlen. rewrite length_map, Hlen.
  reflexivity.
Qed.

(** On an empty buffer the fold changes nothing. *)
Lemma add_reward_empty (r : Q) (self : ValueGradientObjective.t) :
  ReplayBuffer.len (ValueGradientObjective._waiting_buffer self) = 0%nat ->
  ValueGradientObjective._add_reward r self = (inr tt, self).
Proof.
  intros Hlen.
  unfold ValueGradientObjective._add_reward, bind, get, lift, modify.
  rewrite last_slice_arange_short by lia.
  unfold ReplayBuffer.sample, np.iadd. simpl.
  unfold ReplayBuffer.len in Hlen. rewrite length_map, Hlen. simpl.
  destruct self as [b d s f [size its]]. simpl in *.
  apply length_zero_iff_nil in Hlen. subst its. reflexivity.
Qed.

Lemma refold_empty (k : Q) (self : ValueGradientObjective.t) :
  ReplayBuffer.len (ValueGradientObjective._waiting_buffer self) = 0%nat ->
  refold k self = self.
Proof.
  destruct self as [b d s f [size its]]. unfold ReplayBuffer.len. simpl.
  intros Hlen. apply length_zero_iff_nil in Hlen. now subst its.
Qed.

Lemma refold_len (k : Q) (self : ValueGradientObjective.t) :
  ReplayBuffer.len (ValueGradientObjective._waiting_buffer (refold k self)) =
  ReplayBuffer.len (ValueGradientObjective._waiting_buffer self).
Proof.
  unfold refold, ReplayBuffer.len. simpl. apply length_map.
Qed.

(** Away from length one, [_add_reward] returns normally. *)
Lemma add_reward_ok (r : Q) (self : ValueGradientObjective.t) :
  ReplayBuffer.len (ValueGradientObjective._waiting_buffer self) <> 1%nat ->
  ValueGradientObjective._add_reward r self =
    (inr tt,
     refold (fold_factor (ValueGradientObjective._discount_factor self)
               (ReplayBuffer.len (ValueGradientObjective._waiting_buffer self))
             * r) self).
Proof.
  intros Hlen.
  destruct (ReplayBuffer.len (ValueGradientObjective._waiting_buffer self))
    as [| [| n]] eqn:E.
  - rewrite refold_empty by exact E. now apply add_reward_empty.
  - congruence.
  - rewrite <- E. apply add_reward_broadcast. lia.
Qed.

(** ** The four cases of [push] *)

Lemma guarded_fold (r : Q) (self : ValueGradientObjective.t) :
  waiting_len self <> 1%nat ->
  (if ReplayBuffer.truthy (ValueGradientObjective._waiting_buffer self)
   then ValueGradientObjective._add_reward r
   else ret tt) self =
    (inr tt,
     refold (fold_factor (ValueGradientObjective._discount_factor self)
               (waiting_len self) * r) self).
Proof.
  intros Hlen. unfold waiting_len in *. unfold ReplayBuffer.truthy.
  destruct (Nat.eqb_spec
              (ReplayBuffer.len (ValueGradientObjective._waiting_buffer self)) 0)
    as [E | E]; simpl.
  - unfold ret. now rewrite refold_empty.
  - now apply add_reward_ok.
Qed.

Lemma push_single (env_dict : EnvDict) (self : ValueGradientObjective.t) :
  waiting_len self = 1%nat ->
  ValueGradientObjective.push env_dict self = (inl ValueError, self).
Proof.
  intros Hlen. unfold waiting_len in Hlen.
  unfold ValueGradientObjective.push, bind at 1, get at 1.
  unfold bind at 1. unfold ReplayBuffer.truthy. rewrite Hlen.
  cbn [Nat.eqb negb]. now rewrite add_reward_single.
Qed.

Lemma push_terminal (env_dict : EnvDict) (self : ValueGradientObjective.t) :
  env_done env_dict = true ->
  waiting_len self <> 1%nat ->
  ValueGradientObjective.push env_dict self =
    (inr tt,
     flushed (refold (fold_factor (ValueGradientObjective._discount_factor self)
                        (waiting_len self) * env_reward env_dict) self)).
Proof.
  intros Hdone Hlen.
  unfold ValueGradientObjective.push, bind at 1, get at 1.
  unfold bind at 1. rewrite guarded_fold by exact Hlen.
  unfold bind, get, modify, ret. simpl. rewrite Hdone. reflexivity.
Qed.

Lemma push_full_window (env_dict : EnvDict) (self : ValueGradientObjective.t) :
  env_done env_dict = false ->
  Z.of_nat (waiting_len self) = ValueGradientObjective._steps self ->
  waiting_len self <> 1%nat ->
  ValueGradientObjective.push env_dict self =
    (inr tt,
     flushed
       (refold (fold_factor (ValueGradientObjective._discount_factor self)
                  (waiting_len self)
                * Bootstrap.estimate (ValueGradientObjective._bootstrap_func self)
                    [env_next_state env_dict])
          (called [env_next_state env_dict]
             (refold (fold_factor (ValueGradientObjective._discount_factor self)
                        (waiting_len self) * env_reward env_dict) self)))).
Proof.
  intros Hdone Hfull Hlen.
  unfold ValueGradientObjective.push, bind at 1, get at 1.
  unfold bind at 1. rewrite guarded_fold by exact Hlen.
  unfold bind at 1, get at 1. cbv beta iota.
  rewrite refold_len. fold (waiting_len self).
  replace (ValueGradientObjective._steps (refold _ self))
    with (ValueGradientObjective._steps self) by reflexivity.
  rewrite <- Hfull, Z.eqb_refl, orb_true_r.
  simpl done. rewrite Hdone. simpl negb. cbv iota.
  unfold bind at 1. unfold bind at 1. unfold zoom, Bootstrap.call.
  cbv beta iota. simpl next_state.
  match goal with
  | |- context [ValueGradientObjective._add_reward ?v ?s] =>
      assert (Hs : ReplayBuffer.len (ValueGradientObjective._waiting_buffer s)
                   <> 1%nat)
        by (unfold ReplayBuffer.len; simpl; rewrite length_map; exact Hlen);
      rewrite (add_reward_ok v s Hs)
  end.
  unfold bind, get, modify. simpl.
  unfold waiting_len, ReplayBuffer.len. cbn [ReplayBuffer.items].
  rewrite !length_map. reflexivity.
Qed.

Lemma push_pending (env_dict : EnvDict) (self : ValueGradientObjective.t) :
  env_done env_dict = false ->
  Z.of_nat (waiting_len self) <> ValueGradientObjective._steps self ->
  waiting_len self <> 1%nat ->
  ValueGradientObjective.push env_dict self =
    (inr tt,
     let folded :=
       refold (fold_factor (ValueGradientObjective._discount_factor self)
                 (waiting_len self) * env_reward env_dict) self in
     ValueGradientObjective.with_waiting_buffer
       (ReplayBuffer.push (make_element env_dict)
          (ValueGradientObjective._waiting_buffer folded))
       folded).
Proof.
  intros Hdone Hfull Hlen.
  unfold ValueGradientObjective.push, bind at 1, get at 1.
  unfold bind at 1. rewrite guarded_fold by exact Hlen.
  unfold bind at 1, get at 1. cbv beta iota.
  rewrite refold_len. fold (waiting_len self).
  replace (ValueGradientObjective._steps (refold _ self))
    with (ValueGradientObjective._steps self) by reflexivity.
  destruct (Z.eqb_spec (Z.of_nat (waiting_len self))
              (ValueGradientObjective._steps self)) as [E | _];
    [contradiction |].
  change (done (make_element env_dict)) with (env_done env_dict).
  rewrite Hdone. reflexivity.
Qed.

(** ** Claims about ingestion *)

(** C1 (evaluated at three pending transitions, discount 0.9): folding a
    new reward 1 into pending returns 1, 2, 3 adds the single factor
    0.9^2 = 0.81 to every one of them; the oldest does not receive 0.9^3
    and the newest does not receive 0.9^1. *)
Theorem add_reward_three_pending_same_exponent :
  let pending := [make_element (sample_env 1 false);
                  make_element (sample_env 2 false);
                  make_element (sample_env 3 false)] in
  let run := ValueGradientObjective._add_reward 1 (sample_vgo (9 # 10) 3 pending) in
  fst run = inr tt /\
  map Qred (map n_step_return (waiting_items (snd run))) =
    [181 # 100; 281 # 100; 381 # 100] /\
  ~ (nth 0 (map n_step_return (waiting_items (snd run))) 0
     == 1 + (9 # 10) ^ 3 * 1) /\
  ~ (nth 2 (map n_step_return (waiting_items (snd run))) 0
     == 3 + (9 # 10) ^ 1 * 1).
Proof.
  repeat split.
  - vm_compute. intros H. discriminate H.
  - vm_compute. intros H. discriminate H.
Qed.

(** C7 (evaluated at steps = 3, two non-terminal transitions): the second
    ingestion raises [ValueError] inside [_add_reward], so the waiting
    buffer holds one transition, not two. *)
Theorem second_pending_push_raises :
  let run := ingest_all [sample_env 1 false; sample_env 1 false]
               (sample_vgo (99 # 100) 3 []) in
  fst run = inl ValueError /\
  waiting_len (snd run) = 1%nat /\
  store_log (snd run) = [] /\
  bootstrap_log (snd run) = [].
Proof.
  repeat split.
Qed.




(** C4, counterexample: a terminal transition ingested into an empty
    waiting buffer hands the empty batch to the Replay Store; the terminal
    transition itself is not part of what is transferred. *)
Lemma terminal_push_batch_lacks_terminal :
  let env_dict := sample_env 1 true in
  let run := ValueGradientObjective.push env_dict (sample_vgo (99 # 100) 3 []) in
  fst run = inr tt /\
  store_log (snd run) = [[]] /\
  store_log (snd run) <> [[] ++ [make_element env_dict]].
Proof.
  repeat split. vm_compute. discriminate.
Qed.

(** C4, amended: at every fill level other than one, a terminal
    transition flushes exactly once; the batch handed to the Replay Store
    consists of the previously pending transitions only, in their order
    and with their state, action, reward, next_state and done unchanged
    (the terminal transition is not among them; the values of their
    returns are not asserted), the waiting buffer is cleared and
    [bootstrap_func] is not called. *)
Theorem terminal_flush (env_dict : EnvDict) (self : ValueGradientObjective.t) :
  env_done env_dict = true ->
  waiting_len self <> 1%nat ->
  exists self' batch,
    ValueGradientObjective.push env_dict self = (inr tt, self') /\
    store_log self' = store_log self ++ [batch] /\
    map core batch = map core (waiting_items self) /\
    length batch = waiting_len self /\
    waiting_len self' = 0%nat /\
    bootstrap_log self' = bootstrap_log self.
Proof.
  intros Hdone Hlen. eexists. eexists. split.
  - apply push_terminal; assumption.
  - repeat split.
    + unfold waiting_items. cbn. now rewrite bump_core.
    + unfold waiting_len, ReplayBuffer.len. cbn. apply length_map.
Qed.

(** Witness for [terminal_flush]: three pending transitions. *)
Lemma terminal_flush_witness :
  exists self' batch,
    ValueGradientObjective.push (sample_env 1 true)
      (sample_vgo (9 # 10) 3 [make_element (sample_env 1 false);
                              make_element (sample_env 2 false);
                              make_element (sample_env 3 false)])
      = (inr tt, self') /\
    store_log self' = [batch] /\
    length batch = 3%nat /\
    waiting_len self' = 0%nat /\
    bootstrap_log self' = [].
Proof.
  destruct (terminal_flush (sample_env 1 true)
              (sample_vgo (9 # 10) 3 [make_element (sample_env 1 false);
                                      make_element (sample_env 2 false);
                                      make_element (sample_env 3 false)])
              eq_refl ltac:(vm_compute; discriminate))
    as (self' & batch & Hrun & Hlog & _ & Hlen & Hclear & Hboot).
  exists self', batch. repeat split; assumption.
Defined.

(** C10: whenever [push] completes a flush (terminal or full window), the
    waiting buffer is empty afterwards and the batch handed to the Replay
    Store is made of the previously pending transitions only, so the
    incoming transition is in neither; a terminal transition arriving at
    an empty buffer hands over the empty batch. *)
Theorem flush_discards_incoming :
  (forall (env_dict : EnvDict) (self self' : ValueGradientObjective.t),
     ValueGradientObjective.push env_dict self = (inr tt, self') ->
     env_done env_dict = true \/
     Z.of_nat (waiting_len self) = ValueGradientObjective._steps self ->
     waiting_items self' = [] /\
     exists batch,
       store_log self' = store_log self ++ [batch] /\
       length batch = waiting_len self /\
       map core batch = map core (waiting_items self)) /\
  (forall (env_dict : EnvDict) (self : ValueGradientObjective.t),
     waiting_items self = [] ->
     env_done env_dict = true ->
     exists self',
       ValueGradientObjective.push env_dict self = (inr tt, self') /\
       waiting_items self' = [] /\
       store_log self' = store_log self ++ [[]]).
Proof.
  split.
  - intros env_dict self self' Hrun Hflush.
    destruct (Nat.eq_dec (waiting_len self) 1) as [Hone | Hlen].
    { rewrite (push_single env_dict self Hone) in Hrun. discriminate Hrun. }
    destruct (env_done env_dict) eqn:Hdone.
    + rewrite (push_terminal env_dict self Hdone Hlen) in Hrun.
      injection Hrun as <-. split; [reflexivity |].
      eexists. split; [reflexivity |]. split.
      * unfold waiting_len, ReplayBuffer.len. cbn. apply length_map.
      * unfold waiting_items. cbn. now rewrite bump_core.
    + destruct Hflush as [Hcontra | Hfull]; [discriminate Hcontra |].
      rewrite (push_full_window env_dict self Hdone Hfull Hlen) in Hrun.
      injection Hrun as <-. split; [reflexivity |].
      eexists. split; [reflexivity |]. split.
      * unfold waiting_len, ReplayBuffer.len. cbn. now rewrite !length_map.
      * unfold waiting_items. cbn. now rewrite !bump_core.
  - intros env_dict self Hempty Hdone.
    assert (Hlen : waiting_len self <> 1%nat).
    { unfold waiting_len, ReplayBuffer.len. unfold waiting_items in Hempty.
      rewrite Hempty. discriminate. }
    eexists. split.
    + apply push_terminal; assumption.
    + split; [reflexivity |]. unfold store_log, waiting_items in *. cbn.
      now rewrite Hempty.
Qed.

(** Witness for [flush_discards_incoming]: a full-window flush at
    steps = 2 and a terminal arrival at an empty buffer. *)
Lemma flush_discards_incoming_witness :
  (let self := sample_vgo (9 # 10) 2 [make_element (sample_env 1 false);
                                      make_element (sample_env 2 false)] in
   let self' := snd (ValueGradientObjective.push (sample_env 3 false) self) in
   waiting_items self' = [] /\
   exists batch,
     store_log self' = store_log self ++ [batch] /\
     length batch = 2%nat /\
     map core batch = map core (waiting_items self)) /\
  (exists self',
     ValueGradientObjective.push (sample_env 1 true) (sample_vgo (9 # 10) 2 [])
       = (inr tt, self') /\
     waiting_items self' = [] /\
     store_log self' = [[]]).
Proof.
  destruct flush_discards_incoming as [Hflush Hempty]. split.
  - apply (Hflush (sample_env 3 false)).
    + reflexivity.
    + right. reflexivity.
  - apply (Hempty (sample_env 1 true) (sample_vgo (9 # 10) 2 []));
      reflexivity.
Defined.

(** C6 (evaluated at the scenario itself: discount 0.99, steps = 3,
    three non-terminal transitions of reward 1, then a terminal one): run
    from an empty waiting buffer, the second ingestion raises
    [ValueError] inside [_add_reward]; nothing is ever transferred, and
    the one pending transition still carries the return 1. *)
Lemma scenario_run_raises :
  let run := ingest_all [sample_env 1 false; sample_env 1 false;
                         sample_env 1 false; sample_env 1 true]
               (sample_vgo (99 # 100) 3 []) in
  fst run = inl ValueError /\
  store_log (snd run) = [] /\
  map n_step_return (waiting_items (snd run)) = [1].
Proof.
  repeat split.
Qed.

(** ** Claims about optimization *)

Lemma objective_fed_nil (o : Objective.t) : objective_fed [] o = o.
Proof.
  destruct o as [sc rb [ns su tp mi up] it ob im re].
  unfold objective_fed, approximator_fed, Objective.with_func. cbn.
  now rewrite app_nil_r.
Qed.

Lemma objective_fed_cons entry entries (o : Objective.t) :
  objective_fed entries (objective_fed [entry] o) =
  objective_fed (entry :: entries) o.
Proof.
  unfold objective_fed, approximator_fed, Objective.with_func. cbn.
  now rewrite <- app_assoc.
Qed.

Lemma value_updates_run (batches : list Batch) (self : ValueGradientObjective.t) :
  for_each batches
    (fun batch =>
       ValueGradientObjective.on_func
         (Approximator.update tt
            [("state"%string, States (map state batch))]
            [("bellman_target_plh"%string, Reals (map n_step_return batch))]))
    self =
  (inr tt,
   ValueGradientObjective.with_base
     (objective_fed (map value_feed batches) (ValueGradientObjective.base self))
     self).
Proof.
  revert self. induction batches as [| batch batches IH]; intros self.
  - cbn. rewrite objective_fed_nil. now destruct self.
  - cbn [for_each]. unfold bind. cbn [map].
    rewrite <- objective_fed_cons.
    unfold ValueGradientObjective.on_func at 1, zoom, Approximator.update, modify.
    rewrite IH. reflexivity.
Qed.

Lemma policy_updates_run (batches : list Batch) (self : PolicyGradientObjective.t) :
  for_each batches
    (fun batch =>
       PolicyGradientObjective.on_func
         (Approximator.update tt
            [("state"%string, States (map state batch))]
            [("action_taken"%string, Actions (map action batch));
             ("next_state"%string, States (map next_state batch))]))
    self =
  (inr tt,
   PolicyGradientObjective.with_base
     (objective_fed (map policy_feed batches) (PolicyGradientObjective.base self))
     self).
Proof.
  revert self. induction batches as [| batch batches IH]; intros self.
  - cbn. rewrite objective_fed_nil. now destruct self.
  - cbn [for_each]. unfold bind. cbn [map].
    rewrite <- objective_fed_cons.
    unfold PolicyGradientObjective.on_func at 1, zoom, Approximator.update, modify.
    rewrite IH. reflexivity.
Qed.

(** One call of [ValueGradientObjective.optimize], in closed form. *)
Lemma value_optimize_run (batch_size : Z) (self : ValueGradientObjective.t) :
  ValueGradientObjective.optimize tt batch_size self =
  (inr tt,
   ValueGradientObjective.with_base
     (objective_improved
        (objective_fed
           (map value_feed
              (ReplayStore.sample_batches
                 (ValueGradientObjective._replay_buffer self) batch_size
                 (Objective._iterations_of_optimization
                    (ValueGradientObjective.base self))))
           (ValueGradientObjective.base self)))
     self).
Proof.
  unfold ValueGradientObjective.optimize, bind at 1, get.
  unfold bind. rewrite value_updates_run. reflexivity.
Qed.

Lemma policy_optimize_run (batch_size : Z) (self : PolicyGradientObjective.t) :
  PolicyGradientObjective.optimize tt batch_size self =
  (inr tt,
   PolicyGradientObjective.with_base
     (objective_improved
        (objective_fed
           (map policy_feed
              (ReplayStore.sample_batches
                 (Objective._replay_buffer (PolicyGradientObjective.base self))
                 batch_size
                 (Objective._iterations_of_optimization
                    (PolicyGradientObjective.base self))))
           (PolicyGradientObjective.base self)))
     self).
Proof.
  unfold PolicyGradientObjective.optimize, bind at 1, get.
  unfold bind. rewrite policy_updates_run. reflexivity.
Qed.

(** C8: one call of [optimize], on a value-gradient or a policy-gradient
    objective, returns normally, applies one update per batch the Replay
    Store yields and raises [improvement_steps] by exactly one, however
    many batches (possibly none) were yielded. *)
Theorem optimize_counts_one_step (session : Session) (batch_size : Z) :
  (forall self : ValueGradientObjective.t,
     exists self',
       ValueGradientObjective.optimize session batch_size self = (inr tt, self') /\
       ValueGradientObjective.improvement_steps self' =
         (ValueGradientObjective.improvement_steps self + 1)%Z /\
       length (Approximator.updates (ValueGradientObjective._func self')) =
         (length (Approximator.updates (ValueGradientObjective._func self)) +
          length (ReplayStore.sample_batches
                    (ValueGradientObjective._replay_buffer self) batch_size
                    (Objective._iterations_of_optimization
                       (ValueGradientObjective.base self))))%nat) /\
  (forall self : PolicyGradientObjective.t,
     exists self',
       PolicyGradientObjective.optimize session batch_size self = (inr tt, self') /\
       PolicyGradientObjective.improvement_steps self' =
         (PolicyGradientObjective.improvement_steps self + 1)%Z /\
       length (Approximator.updates
                 (Objective._func (PolicyGradientObjective.base self'))) =
         (length (Approximator.updates
                    (Objective._func (PolicyGradientObjective.base self))) +
          length (ReplayStore.sample_batches
                    (Objective._replay_buffer (PolicyGradientObjective.base self))
                    batch_size
                    (Objective._iterations_of_optimization
                       (PolicyGradientObjective.base self))))%nat).
Proof.
  destruct session. split; intros self; eexists; split.
  - apply value_optimize_run.
  - split; [reflexivity |]. cbn. now rewrite length_app, length_map.
  - apply policy_optimize_run.
  - split; [reflexivity |]. cbn. now rewrite length_app, length_map.
Qed.

(** [_optimization_calls] is never written, so with a non-zero period the
    test [_optimization_calls % _sync_period == 0] succeeds on every call:
    each call runs the copy operation and keeps the increment of
    [improvement_steps]. *)
Lemma decoupled_optimize_always_syncs
  (batch_size : Z) (self : DecoupledValueGradientObjective.t) (k : nat) :
  DecoupledValueGradientObjective._sync_period self <> 0%Z ->
  DecoupledValueGradientObjective._optimization_calls self = 0%Z ->
  DecoupledValueGradientObjective._copy self = Some k ->
  exists self',
    DecoupledValueGradientObjective.optimize tt batch_size self = (inr tt, self') /\
    DecoupledValueGradientObjective._sync_period self' =
      DecoupledValueGradientObjective._sync_period self /\
    DecoupledValueGradientObjective._optimization_calls self' = 0%Z /\
    DecoupledValueGradientObjective._copy self' = Some (S k) /\
    DecoupledValueGradientObjective.improvement_steps self' =
      (DecoupledValueGradientObjective.improvement_steps self + 1)%Z.
Proof.
  intros Hperiod Hcalls Hcopy.
  unfold DecoupledValueGradientObjective.optimize, bind at 1, zoom.
  rewrite value_optimize_run.
  unfold bind at 1, get. unfold bind at 1, lift, py_mod. cbn.
  rewrite Hcalls.
  destruct (Z.eqb_spec (DecoupledValueGradientObjective._sync_period self) 0)
    as [E | _]; [contradiction |].
  rewrite Z.mod_0_l by exact Hperiod. cbn.
  unfold DecoupledValueGradientObjective.sync, bind, get. cbn.
  rewrite Hcopy. eexists. split; [reflexivity |]. cbn. auto.
Qed.

Lemma decoupled_optimize_repeat
  (batch_size : Z) (n : nat) :
  forall (self : DecoupledValueGradientObjective.t) (k : nat),
  DecoupledValueGradientObjective._sync_period self <> 0%Z ->
  DecoupledValueGradientObjective._optimization_calls self = 0%Z ->
  DecoupledValueGradientObjective._copy self = Some k ->
  exists self',
    repeat_call n (DecoupledValueGradientObjective.optimize tt batch_size) self
      = (inr tt, self') /\
    DecoupledValueGradientObjective.sync_count self' = (k + n)%nat /\
    DecoupledValueGradientObjective.improvement_steps self' =
      (DecoupledValueGradientObjective.improvement_steps self + Z.of_nat n)%Z.
Proof.
  induction n as [| n IH]; intros self k Hperiod Hcalls Hcopy.
  - exists self. cbn. unfold ret, DecoupledValueGradientObjective.sync_count.
    rewrite Hcopy. repeat split; lia.
  - destruct (decoupled_optimize_always_syncs batch_size self k
                Hperiod Hcalls Hcopy)
      as (mid & Hrun & Hperiod' & Hcalls' & Hcopy' & Hsteps).
    rewrite <- Hperiod' in Hperiod.
    destruct (IH mid (S k) Hperiod Hcalls' Hcopy')
      as (self' & Hrest & Hsync & Hsteps').
    exists self'. cbn [repeat_call]. unfold bind. rewrite Hrun.
    repeat split; [exact Hrest | lia | lia].
Qed.

(** C2 (evaluated at sync_period = 5, twelve calls after [set_up]): the
    copy operation runs on all twelve calls and [improvement_steps] ends
    at 12, not 2; the call counter is still 0. *)
Theorem twelve_optimize_calls_sync_twelve_times :
  let ready := snd (DecoupledValueGradientObjective.set_up tt (sample_decoupled 5)) in
  let run := repeat_call 12 (DecoupledValueGradientObjective.optimize tt 32) ready in
  fst run = inr tt /\
  DecoupledValueGradientObjective.sync_count ready = 0%nat /\
  DecoupledValueGradientObjective.sync_count (snd run) = 12%nat /\
  DecoupledValueGradientObjective.improvement_steps (snd run) = 12%Z /\
  DecoupledValueGradientObjective._optimization_calls (snd run) = 0%Z.
Proof.
  vm_compute. repeat split.
Qed.

(** ** Claims about construction and set-up *)


Lemma Objective_init_four_arguments
  (scope : string) (store : ReplayStore.t) (func : Approximator.t) (n : Z) :
  exists self,
    Constructors.instantiate
      (Constructors.Objective__init__
         [Constructors.VStr scope; Constructors.VStore store;
          Constructors.VApprox func; Constructors.VInt n]) = inr self /\
    Constructors.getattr "_improvement_steps" self = Some (Constructors.VInt 0).
Proof.
  eexists. split; reflexivity.
Qed.

(** With arguments of the expected kinds (a replay buffer, an
    approximator), constructing a [ValueGradientObjective], a
    [DecoupledValueGradientObjective] or a [PolicyGradientObjective]
    raises [TypeError]: each reaches [Objective.__init__] with five
    explicit arguments where four are accepted. *)
Lemma no_objective_can_be_constructed :
  (forall scope replay_buffer discount_factor value_func
          iteration_of_optimization steps bootstrap_func,
     Constructors.instantiate
       (Constructors.ValueGradientObjective__init__ scope replay_buffer
          discount_factor value_func iteration_of_optimization steps
          bootstrap_func) = inl TypeError) /\
  (forall scope replay_buffer discount_factor value_func
          iteration_of_optimization steps sync_period,
     Constructors.instantiate
       (Constructors.DecoupledValueGradientObjective__init__ scope
          replay_buffer discount_factor value_func iteration_of_optimization
          steps sync_period) = inl TypeError) /\
  (forall scope replay_buffer policy_func policy_return
          iteration_of_optimization from_gradient,
     Constructors.instantiate
       (Constructors.PolicyGradientObjective__init__ scope replay_buffer
          policy_func policy_return iteration_of_optimization from_gradient)
     = inl TypeError).
Proof.
  repeat split; intros; reflexivity.
Qed.

(** The outcome of [ValueGradientObjective.__init__] on seven arguments,
    whatever the instance holds already. *)
Lemma value_init_outcome
  (ReplayBuffer_call
     : Constructors.PyVal -> Constructors.PyVal -> PyExc + Constructors.PyVal)
  (scope replay_buffer discount_factor value_func iteration_of_optimization
   steps bootstrap_func : Constructors.PyVal)
  (self : Constructors.Instance) :
  fst (Calls.ValueGradientObjective__init__ ReplayBuffer_call
         [scope; replay_buffer; discount_factor; value_func;
          iteration_of_optimization; steps; bootstrap_func] self) =
  match Constructors.element_cls replay_buffer with
  | inl e => inl e
  | inr cls =>
      match ReplayBuffer_call cls steps with
      | inl e => inl e
      | inr _ => inl TypeError
      end
  end.
Proof.
  unfold Calls.ValueGradientObjective__init__, bind, Constructors.setattr,
    modify, lift.
  destruct (Constructors.element_cls replay_buffer) as [e | cls];
    [reflexivity |].
  destruct (ReplayBuffer_call cls steps) as [e | waiting]; reflexivity.
Qed.

Lemma instantiate_outcome (init : Py Constructors.Instance unit) (e : PyExc) :
  fst (init []) = inl e -> Constructors.instantiate init = inl e.
Proof.
  unfold Constructors.instantiate. destruct (init []) as [[e' | []] self];
    cbn; congruence.
Qed.

(** C5, counterexample: a [ValueGradientObjective] built with [None] as
    its replay buffer, and a [DecoupledValueGradientObjective] built with
    [None] as its value function, raise [AttributeError], not
    [TypeError]. *)
Lemma construction_may_raise_AttributeError :
  Constructors.instantiate
    (Calls.ValueGradientObjective__init__ Calls.sample_ReplayBuffer
       [Constructors.VStr "agent"; Constructors.VNone;
        Constructors.VFloat (99 # 100); Constructors.VApprox sample_func;
        Constructors.VInt 2; Constructors.VInt 3;
        Constructors.VCallable sample_bootstrap]) = inl AttributeError /\
  Constructors.instantiate
    (Calls.DecoupledValueGradientObjective__init__ Calls.sample_ReplayBuffer
       Calls.sample_ScopeWrap_build Calls.sample_copy_obj
       [Constructors.VStr "agent"; Constructors.VStore sample_store;
        Constructors.VFloat (99 # 100); Constructors.VNone;
        Constructors.VInt 2; Constructors.VInt 3; Constructors.VInt 5])
    = inl AttributeError /\
  @inl PyExc Constructors.Instance AttributeError <> inl TypeError.
Proof.
  repeat split. discriminate.
Qed.

(** C5, amended: for every positional argument list, constructing a
    [ValueGradientObjective], a [DecoupledValueGradientObjective] or a
    [PolicyGradientObjective] raises, so no instance is ever returned.
    [PolicyGradientObjective] always raises [TypeError].  The other two
    raise [TypeError] on a wrong number of arguments and, with seven
    arguments, whenever the statements before [super().__init__]
    complete, since [Objective.__init__] is then reached with five
    explicit arguments; an argument that lacks an attribute read before
    that ([replay_buffer.element_cls], [value_func.name_scope]) makes
    them raise [AttributeError] instead. *)
Theorem construction_always_raises
  (ReplayBuffer_call
     : Constructors.PyVal -> Constructors.PyVal -> PyExc + Constructors.PyVal)
  (ScopeWrap_build_call
     : Constructors.PyVal -> string -> PyExc + Constructors.PyVal)
  (copy_obj_call
     : Approximator.t -> Constructors.PyVal -> PyExc + Constructors.PyVal)
  (args : list Constructors.PyVal) :
  let value_new :=
    Constructors.instantiate
      (Calls.ValueGradientObjective__init__ ReplayBuffer_call args) in
  let decoupled_new :=
    Constructors.instantiate
      (Calls.DecoupledValueGradientObjective__init__ ReplayBuffer_call
         ScopeWrap_build_call copy_obj_call args) in
  let policy_new :=
    Constructors.instantiate (Calls.PolicyGradientObjective__init__ args) in
  (exists e, value_new = inl e) /\
  (exists e, decoupled_new = inl e) /\
  policy_new = inl TypeError /\
  (length args <> 7%nat ->
   value_new = inl TypeError /\ decoupled_new = inl TypeError) /\
  (forall scope replay_buffer discount_factor value_func
          iteration_of_optimization steps last,
     args = [scope; replay_buffer; discount_factor; value_func;
             iteration_of_optimization; steps; last] ->
     (forall cls waiting,
        Constructors.element_cls replay_buffer = inr cls ->
        ReplayBuffer_call cls steps = inr waiting ->
        value_new = inl TypeError) /\
     (Constructors.element_cls replay_buffer = inl AttributeError ->
      value_new = inl AttributeError) /\
     (forall name bootstrap_scope bootstrap_func cls waiting,
        Calls.name_scope value_func = inr name ->
        ScopeWrap_build_call scope ("target/" ++ name)%string
          = inr bootstrap_scope ->
        Calls.copy_obj copy_obj_call value_func bootstrap_scope
          = inr bootstrap_func ->
        Constructors.element_cls replay_buffer = inr cls ->
        ReplayBuffer_call cls steps = inr waiting ->
        decoupled_new = inl TypeError) /\
     (Calls.name_scope value_func = inl AttributeError ->
      decoupled_new = inl AttributeError)).
Proof.
  cbv zeta.
  assert (Hshort : length args <> 7%nat ->
            Constructors.instantiate
              (Calls.ValueGradientObjective__init__ ReplayBuffer_call args)
              = inl TypeError /\
            Constructors.instantiate
              (Calls.DecoupledValueGradientObjective__init__ ReplayBuffer_call
                 ScopeWrap_build_call copy_obj_call args) = inl TypeError).
  { intros Hlen.
    destruct args as [| a1 [| a2 [| a3 [| a4 [| a5 [| a6 [| a7 [| a8 r]]]]]]]];
      try (split; reflexivity).
    exfalso. apply Hlen. reflexivity. }
  assert (Hdecoupled : forall scope replay_buffer discount_factor value_func
                              iteration_of_optimization steps sync_period,
            fst (Calls.DecoupledValueGradientObjective__init__
                   ReplayBuffer_call ScopeWrap_build_call copy_obj_call
                   [scope; replay_buffer; discount_factor; value_func;
                    iteration_of_optimization; steps; sync_period] []) =
            match Calls.name_scope value_func with
            | inl e => inl e
            | inr name =>
                match ScopeWrap_build_call scope ("target/" ++ name)%string with
                | inl e => inl e
                | inr bootstrap_scope =>
                    match Calls.copy_obj copy_obj_call value_func
                            bootstrap_scope with
                    | inl e => inl e
                    | inr bootstrap_func =>
                        match Constructors.element_cls replay_buffer with
                        | inl e => inl e
                        | inr cls =>
                            match ReplayBuffer_call cls steps with
                            | inl e => inl e
                            | inr _ => inl TypeError
                            end
                        end
                    end
                end
            end).
  { intros scope replay_buffer discount_factor value_func
      iteration_of_optimization steps sync_period.
    unfold Calls.DecoupledValueGradientObjective__init__.
    unfold bind at 1, Constructors.setattr at 1, modify at 1.
    unfold bind at 1, Constructors.setattr at 1, modify at 1.
    unfold bind at 1, Constructors.setattr at 1, modify at 1.
    unfold bind at 1, lift at 1.
    destruct (Calls.name_scope value_func) as [e | name]; [reflexivity |].
    unfold bind at 1, lift at 1.
    destruct (ScopeWrap_build_call scope _) as [e | bootstrap_scope];
      [reflexivity |].
    unfold bind at 1, lift at 1.
    destruct (Calls.copy_obj copy_obj_call value_func bootstrap_scope)
      as [e | bootstrap_func]; [reflexivity |].
    apply value_init_outcome. }
  assert (Hpolicy : Constructors.instantiate
                      (Calls.PolicyGradientObjective__init__ args)
                    = inl TypeError).
  { destruct args as [| a1 [| a2 [| a3 [| a4 [| a5 [| a6 [| a7 r]]]]]]];
      reflexivity. }
  destruct (Nat.eq_dec (length args) 7) as [Hseven | Hlen].
  - destruct args as [| a1 [| a2 [| a3 [| a4 [| a5 [| a6 [| a7 [| a8 r]]]]]]]];
      try discriminate Hseven.
    pose proof (value_init_outcome ReplayBuffer_call a1 a2 a3 a4 a5 a6 a7 [])
      as Hvalue.
    pose proof (Hdecoupled a1 a2 a3 a4 a5 a6 a7) as Hdec.
    split; [| split; [| split; [exact Hpolicy | split]]].
    + destruct (Constructors.element_cls a2) as [e | cls];
        [exists e; now apply instantiate_outcome |].
      destruct (ReplayBuffer_call cls a6) as [e | waiting];
        [exists e | exists TypeError]; now apply instantiate_outcome.
    + destruct (Calls.name_scope a4) as [e | name];
        [exists e; now apply instantiate_outcome |].
      destruct (ScopeWrap_build_call a1 _) as [e | bootstrap_scope];
        [exists e; now apply instantiate_outcome |].
      destruct (Calls.copy_obj copy_obj_call a4 bootstrap_scope)
        as [e | bootstrap_func];
        [exists e; now apply instantiate_outcome |].
      destruct (Constructors.element_cls a2) as [e | cls];
        [exists e; now apply instantiate_outcome |].
      destruct (ReplayBuffer_call cls a6) as [e | waiting];
        [exists e | exists TypeError]; now apply instantiate_outcome.
    + intros Hlen. exfalso. apply Hlen. reflexivity.
    + intros scope replay_buffer discount_factor value_func
        iteration_of_optimization steps last Hargs.
      injection Hargs as <- <- <- <- <- <- <-.
      split; [| split; [| split]].
      * intros cls waiting Hcls Hwaiting.
        apply instantiate_outcome. now rewrite Hvalue, Hcls, Hwaiting.
      * intros Hcls. apply instantiate_outcome. now rewrite Hvalue, Hcls.
      * intros name bootstrap_scope bootstrap_func cls waiting
          Hname Hscope Hcopy Hcls Hwaiting.
        apply instantiate_outcome.
        now rewrite Hdec, Hname, Hscope, Hcopy, Hcls, Hwaiting.
      * intros Hname. apply instantiate_outcome. now rewrite Hdec, Hname.
  - destruct (Hshort Hlen) as [Hvalue Hdec].
    split; [now exists TypeError |]. split; [now exists TypeError |].
    split; [exact Hpolicy |]. split; [intros _; now split |].
    intros scope replay_buffer discount_factor value_func
      iteration_of_optimization steps last ->.
    exfalso. apply Hlen. reflexivity.
Qed.

(** Witness for [construction_always_raises]: a replay buffer, an
    approximator and integer sizes, with constructors that return. *)
Lemma construction_always_raises_witness :
  Constructors.instantiate
    (Calls.ValueGradientObjective__init__ Calls.sample_ReplayBuffer
       [Constructors.VStr "agent"; Constructors.VStore sample_store;
        Constructors.VFloat (99 # 100); Constructors.VApprox sample_func;
        Constructors.VInt 2; Constructors.VInt 3;
        Constructors.VCallable sample_bootstrap]) = inl TypeError /\
  Constructors.instantiate
    (Calls.DecoupledValueGradientObjective__init__ Calls.sample_ReplayBuffer
       Calls.sample_ScopeWrap_build Calls.sample_copy_obj
       [Constructors.VStr "agent"; Constructors.VStore sample_store;
        Constructors.VFloat (99 # 100); Constructors.VApprox sample_func;
        Constructors.VInt 2; Constructors.VInt 3; Constructors.VInt 5])
    = inl TypeError /\
  Constructors.instantiate
    (Calls.ValueGradientObjective__init__ Calls.sample_ReplayBuffer
       [Constructors.VStr "agent"]) = inl TypeError.
Proof.
  split; [| split].
  - destruct (construction_always_raises Calls.sample_ReplayBuffer
                Calls.sample_ScopeWrap_build Calls.sample_copy_obj
                [Constructors.VStr "agent"; Constructors.VStore sample_store;
                 Constructors.VFloat (99 # 100); Constructors.VApprox sample_func;
                 Constructors.VInt 2; Constructors.VInt 3;
                 Constructors.VCallable sample_bootstrap])
      as (_ & _ & _ & _ & Hseven).
    destruct (Hseven _ _ _ _ _ _ _ eq_refl) as (Hvalue & _).
    eapply Hvalue; reflexivity.
  - destruct (construction_always_raises Calls.sample_ReplayBuffer
                Calls.sample_ScopeWrap_build Calls.sample_copy_obj
                [Constructors.VStr "agent"; Constructors.VStore sample_store;
                 Constructors.VFloat (99 # 100); Constructors.VApprox sample_func;
                 Constructors.VInt 2; Constructors.VInt 3; Constructors.VInt 5])
      as (_ & _ & _ & _ & Hseven).
    destruct (Hseven _ _ _ _ _ _ _ eq_refl) as (_ & _ & Hdec & _).
    eapply Hdec; reflexivity.
  - apply (construction_always_raises Calls.sample_ReplayBuffer
             Calls.sample_ScopeWrap_build Calls.sample_copy_obj
             [Constructors.VStr "agent"]).
    cbn. lia.
Defined.



(** * Further properties of the objectives *)

(** ** [_add_reward] and single calls of [push] *)

(** The four exhaustive cases of a call of [push]. *)
Ltac push_cases env_dict self :=
  let Hone := fresh "Hone" in
  let Hlen := fresh "Hlen" in
  let Hdone := fresh "Hdone" in
  let Hfull := fresh "Hfull" in
  destruct (Nat.eq_dec (waiting_len self) 1) as [Hone | Hlen];
  [ rewrite (push_single env_dict self Hone)
  | destruct (env_done env_dict) eqn:Hdone;
    [ rewrite (push_terminal env_dict self Hdone Hlen)
    | destruct (Z.eq_dec (Z.of_nat (waiting_len self))
                  (ValueGradientObjective._steps self)) as [Hfull | Hfull];
      [ rewrite (push_full_window env_dict self Hdone Hfull Hlen)
      | rewrite (push_pending env_dict self Hdone Hfull Hlen) ] ] ].

Lemma map_bump_returns (k : Q) (els : list Element) :
  map n_step_return (map (bump k) els) =
  map (fun e => n_step_return e + k) els.
Proof.
  rewrite map_map. apply map_ext. intros e. reflexivity.
Qed.

(** X1: with two or more pending transitions, [_add_reward r] returns
    normally and adds one and the same amount,
    [discount ^ (len - 1) * r], to the return of every pending
    transition; their other fields, their order, the Replay Store and the
    bootstrap function are untouched. *)
Theorem add_reward_shifts_all_pending
  (r : Q) (self : ValueGradientObjective.t) :
  (2 <= waiting_len self)%nat ->
  exists self',
    ValueGradientObjective._add_reward r self = (inr tt, self') /\
    map n_step_return (waiting_items self') =
      map (fun e =>
             n_step_return e +
             Qpower (ValueGradientObjective._discount_factor self)
                    (Z.of_nat (waiting_len self) - 1) * r)
          (waiting_items self) /\
    map core (waiting_items self') = map core (waiting_items self) /\
    store_log self' = store_log self /\
    bootstrap_log self' = bootstrap_log self /\
    ValueGradientObjective.base self' = ValueGradientObjective.base self.
Proof.
  intros Hlen. eexists. split.
  - apply add_reward_broadcast. exact Hlen.
  - unfold waiting_items, refold. cbn.
    rewrite map_bump_returns, bump_core. repeat split.
Qed.

(** Witness for [add_reward_shifts_all_pending]: pending returns 1 and 2,
    discount 1/2. *)
Lemma add_reward_shifts_all_pending_witness :
  exists self',
    ValueGradientObjective._add_reward 4
      (sample_vgo (1 # 2) 3 [make_element (sample_env 1 false);
                             make_element (sample_env 2 false)])
      = (inr tt, self') /\
    map n_step_return (waiting_items self') =
      [1 + Qpower (1 # 2) 1 * 4; 2 + Qpower (1 # 2) 1 * 4].
Proof.
  destruct (add_reward_shifts_all_pending 4
              (sample_vgo (1 # 2) 3 [make_element (sample_env 1 false);
                                     make_element (sample_env 2 false)])
              (le_n 2))
    as (self' & Hrun & Hreturns & _).
  exists self'. split; [exact Hrun | exact Hreturns].
Defined.

(** X2: while exactly one transition is pending, every call of [push],
    terminal or not, and every call of [_add_reward] raises [ValueError]
    and leaves the objective exactly as it was. *)
Theorem one_pending_blocks_push
  (env_dict : EnvDict) (r : Q) (self : ValueGradientObjective.t) :
  waiting_len self = 1%nat ->
  ValueGradientObjective.push env_dict self = (inl ValueError, self) /\
  ValueGradientObjective._add_reward r self = (inl ValueError, self).
Proof.
  intros Hone. split.
  - apply push_single. exact Hone.
  - apply add_reward_single. exact Hone.
Qed.

(** Witness for [one_pending_blocks_push]: a terminal transition arriving
    at one pending transition. *)
Lemma one_pending_blocks_push_witness :
  let self := sample_vgo (9 # 10) 3 [make_element (sample_env 1 false)] in
  ValueGradientObjective.push (sample_env 2 true) self = (inl ValueError, self) /\
  ValueGradientObjective._add_reward 2 self = (inl ValueError, self).
Proof.
  exact (one_pending_blocks_push (sample_env 2 true) 2
           (sample_vgo (9 # 10) 3 [make_element (sample_env 1 false)])
           eq_refl).
Defined.

(** X3: whether it returns or raises, a call of [push] only ever appends
    to what the Replay Store and the bootstrap function have received: at
    most one batch and at most one bootstrap call, and a bootstrap call is
    made only for a non-terminal transition, on that transition's
    [next_state], in a call that also hands over a batch. *)
Theorem push_extends_logs (env_dict : EnvDict) (self : ValueGradientObjective.t) :
  exists batches calls,
    store_log (snd (ValueGradientObjective.push env_dict self)) =
      store_log self ++ batches /\
    bootstrap_log (snd (ValueGradientObjective.push env_dict self)) =
      bootstrap_log self ++ calls /\
    (length batches <= 1)%nat /\
    (calls = [] \/
     (calls = [[env_next_state env_dict]] /\
      length batches = 1%nat /\
      env_done env_dict = false)).
Proof.
  push_cases env_dict self.
  - exists [], []. cbn. rewrite !app_nil_r. auto.
  - eexists. exists [].
    split; [cbn; reflexivity |].
    split; [cbn; now rewrite app_nil_r |]. cbn. auto.
  - eexists. eexists.
    split; [cbn; reflexivity |].
    split; [cbn; reflexivity |]. cbn. auto.
  - exists [], []. cbn. rewrite !app_nil_r. auto.
Qed.

(** X4: a call of [push], returning or raising, never touches the
    approximator, [improvement_steps], the loss, the regularizers, the
    iteration count, the discount factor, the horizon, the estimate of
    the bootstrap function or the capacity of the waiting buffer. *)
Theorem push_frame (env_dict : EnvDict) (self : ValueGradientObjective.t) :
  let self' := snd (ValueGradientObjective.push env_dict self) in
  ValueGradientObjective._func self' = ValueGradientObjective._func self /\
  ValueGradientObjective.improvement_steps self' =
    ValueGradientObjective.improvement_steps self /\
  Objective._objective (ValueGradientObjective.base self') =
    Objective._objective (ValueGradientObjective.base self) /\
  Objective.regularizers (ValueGradientObjective.base self') =
    Objective.regularizers (ValueGradientObjective.base self) /\
  Objective._iterations_of_optimization (ValueGradientObjective.base self') =
    Objective._iterations_of_optimization (ValueGradientObjective.base self) /\
  ValueGradientObjective._discount_factor self' =
    ValueGradientObjective._discount_factor self /\
  ValueGradientObjective._steps self' = ValueGradientObjective._steps self /\
  Bootstrap.estimate (ValueGradientObjective._bootstrap_func self') =
    Bootstrap.estimate (ValueGradientObjective._bootstrap_func self) /\
  ReplayBuffer.buffer_size (ValueGradientObjective._waiting_buffer self') =
    ReplayBuffer.buffer_size (ValueGradientObjective._waiting_buffer self).
Proof.
  cbv zeta. push_cases env_dict self; cbn; repeat split.
Qed.

(** ** Sequences of [push] calls *)

Lemma push_capacity_step (env_dict : EnvDict) (self : ValueGradientObjective.t) :
  (Z.of_nat (waiting_len self) <= ValueGradientObjective._steps self)%Z ->
  (Z.of_nat (waiting_len (snd (ValueGradientObjective.push env_dict self)))
   <= ValueGradientObjective._steps
        (snd (ValueGradientObjective.push env_dict self)))%Z.
Proof.
  intros Hcap. push_cases env_dict self; cbn.
  - exact Hcap.
  - unfold waiting_len, ReplayBuffer.len. cbn. lia.
  - unfold waiting_len, ReplayBuffer.len. cbn. lia.
  - unfold waiting_len, ReplayBuffer.len in *. cbn.
    rewrite length_app, length_map. cbn. lia.
Qed.

(** X5: the waiting buffer never outgrows the horizon: if it holds at
    most [steps] transitions, it still does after any sequence of [push]
    calls, whether they return or raise. *)
Theorem waiting_buffer_within_capacity
  (envs : list EnvDict) (self : ValueGradientObjective.t) :
  (Z.of_nat (waiting_len self) <= ValueGradientObjective._steps self)%Z ->
  (Z.of_nat (waiting_len (push_each envs self))
   <= ValueGradientObjective._steps (push_each envs self))%Z.
Proof.
  revert self. induction envs as [| env_dict envs IH]; intros self Hcap.
  - exact Hcap.
  - cbn [push_each]. apply IH. apply push_capacity_step. exact Hcap.
Qed.

(** Witness for [waiting_buffer_within_capacity]: two arrivals at an
    empty buffer of horizon 3. *)
Lemma waiting_buffer_within_capacity_witness :
  (Z.of_nat (waiting_len
               (push_each [sample_env 1 false; sample_env 1 true]
                  (sample_vgo (9 # 10) 3 [])))
   <= 3)%Z.
Proof.
  apply (waiting_buffer_within_capacity
           [sample_env 1 false; sample_env 1 true]
           (sample_vgo (9 # 10) 3 [])).
  vm_compute. discriminate.
Defined.

Lemma waiting_len_zero_items (self : ValueGradientObjective.t) :
  waiting_len self = 0%nat -> waiting_items self = [].
Proof.
  unfold waiting_len, waiting_items, ReplayBuffer.len.
  apply length_zero_iff_nil.
Qed.

(** One call of [push] at a buffer holding at most one transition. *)
Lemma short_buffer_step (env_dict : EnvDict) (self : ValueGradientObjective.t) :
  (waiting_len self <= 1)%nat ->
  let self' := snd (ValueGradientObjective.push env_dict self) in
  (waiting_len self' <= 1)%nat /\
  ValueGradientObjective._steps self' = ValueGradientObjective._steps self /\
  (exists k, store_log self' = store_log self ++ repeat [] k) /\
  (ValueGradientObjective._steps self <> 0%Z ->
   bootstrap_log self' = bootstrap_log self).
Proof.
  intros Hshort. cbv zeta. push_cases env_dict self.
  - cbn. repeat split; [exact Hshort | exists 0%nat; cbn; now rewrite app_nil_r].
  - assert (Hempty : waiting_items self = [])
      by (apply waiting_len_zero_items; lia).
    unfold waiting_items in Hempty.
    cbn. unfold waiting_len, ReplayBuffer.len, store_log. cbn.
    rewrite Hempty. repeat split; [lia | now exists 1%nat].
  - assert (Hzero : waiting_len self = 0%nat) by lia.
    pose proof (waiting_len_zero_items self Hzero) as Hempty.
    unfold waiting_items in Hempty.
    cbn. unfold waiting_len, ReplayBuffer.len, store_log. cbn.
    rewrite Hempty. repeat split; [lia | now exists 1%nat |].
    intros Hsteps. rewrite Hzero in Hfull. cbn in Hfull. congruence.
  - assert (Hzero : waiting_len self = 0%nat) by lia.
    pose proof (waiting_len_zero_items self Hzero) as Hempty.
    unfold waiting_items in Hempty.
    cbn. unfold waiting_len, ReplayBuffer.len, store_log. cbn.
    rewrite Hempty. cbn. repeat split; [lia |].
    exists 0%nat. cbn. now rewrite app_nil_r.
Qed.

Lemma short_buffer_run (envs : list EnvDict) :
  forall self : ValueGradientObjective.t,
  (waiting_len self <= 1)%nat ->
  (waiting_len (push_each envs self) <= 1)%nat /\
  (exists k, store_log (push_each envs self) = store_log self ++ repeat [] k) /\
  (ValueGradientObjective._steps self <> 0%Z ->
   bootstrap_log (push_each envs self) = bootstrap_log self).
Proof.
  induction envs as [| env_dict envs IH]; intros self Hshort.
  - cbn. repeat split; [exact Hshort | exists 0%nat; cbn; now rewrite app_nil_r].
  - cbn [push_each].
    destruct (short_buffer_step env_dict self Hshort)
      as (Hshort' & Hsteps & [k Hlog] & Hboot).
    destruct (IH _ Hshort') as (Hlen & [k' Hlog'] & Hboot').
    split; [exact Hlen |]. split.
    + exists (k + k')%nat.
      now rewrite Hlog', Hlog, <- app_assoc, repeat_app.
    + intros Hnz. rewrite Hboot' by (now rewrite Hsteps).
      now apply Hboot.
Qed.

(** X6: starting from a waiting buffer that holds at most one transition
    (a fresh objective in particular), no sequence of [push] calls ever
    gets a transition into the Replay Store: the buffer never holds more
    than one transition and every batch handed over is empty. *)
Theorem no_transition_reaches_the_store
  (envs : list EnvDict) (self : ValueGradientObjective.t) :
  (waiting_len self <= 1)%nat ->
  (waiting_len (push_each envs self) <= 1)%nat /\
  exists k, store_log (push_each envs self) = store_log self ++ repeat [] k.
Proof.
  intros Hshort.
  destruct (short_buffer_run envs self Hshort) as (Hlen & Hlog & _).
  split; assumption.
Qed.

(** Witness for [no_transition_reaches_the_store]: five arrivals at a
    fresh objective of horizon 3. *)
Lemma no_transition_reaches_the_store_witness :
  let self := sample_vgo (9 # 10) 3 [] in
  let envs := [sample_env 1 true; sample_env 1 false; sample_env 1 false;
               sample_env 1 false; sample_env 1 true] in
  (waiting_len (push_each envs self) <= 1)%nat /\
  exists k, store_log (push_each envs self) = store_log self ++ repeat [] k.
Proof.
  apply (no_transition_reaches_the_store
           [sample_env 1 true; sample_env 1 false; sample_env 1 false;
            sample_env 1 false; sample_env 1 true]
           (sample_vgo (9 # 10) 3 [])).
  vm_compute. lia.
Defined.

(** X7: with a horizon other than 0, starting from a waiting buffer that
    holds at most one transition, no sequence of [push] calls ever calls
    the bootstrap function. *)
Theorem bootstrap_is_never_called
  (envs : list EnvDict) (self : ValueGradientObjective.t) :
  (waiting_len self <= 1)%nat ->
  ValueGradientObjective._steps self <> 0%Z ->
  bootstrap_log (push_each envs self) = bootstrap_log self.
Proof.
  intros Hshort Hsteps.
  destruct (short_buffer_run envs self Hshort) as (_ & _ & Hboot).
  apply Hboot. exact Hsteps.
Qed.

(** Witness for [bootstrap_is_never_called]: horizon 1, three non-terminal
    arrivals. *)
Lemma bootstrap_is_never_called_witness :
  bootstrap_log
    (push_each [sample_env 1 false; sample_env 1 false; sample_env 1 false]
       (sample_vgo (9 # 10) 1 [])) = [].
Proof.
  apply (bootstrap_is_never_called
           [sample_env 1 false; sample_env 1 false; sample_env 1 false]
           (sample_vgo (9 # 10) 1 [])).
  - vm_compute. lia.
  - discriminate.
Defined.

(** X8: with horizon 0 nothing is ever buffered: at an empty waiting
    buffer every call of [push] returns normally, hands the empty batch
    to the Replay Store, leaves the buffer empty, and calls the bootstrap
    function exactly when the transition is not terminal. *)
Theorem horizon_zero_never_buffers
  (env_dict : EnvDict) (self : ValueGradientObjective.t) :
  ValueGradientObjective._steps self = 0%Z ->
  waiting_items self = [] ->
  exists self',
    ValueGradientObjective.push env_dict self = (inr tt, self') /\
    waiting_items self' = [] /\
    store_log self' = store_log self ++ [[]] /\
    bootstrap_log self' =
      bootstrap_log self ++
      (if env_done env_dict then [] else [[env_next_state env_dict]]).
Proof.
  intros Hsteps Hempty.
  assert (Hzero : waiting_len self = 0%nat).
  { unfold waiting_len, ReplayBuffer.len. unfold waiting_items in Hempty.
    now rewrite Hempty. }
  assert (Hlen : waiting_len self <> 1%nat) by lia.
  unfold waiting_items in Hempty.
  destruct (env_done env_dict) eqn:Hdone; eexists; split.
  - apply push_terminal; assumption.
  - unfold waiting_items, store_log, bootstrap_log. cbn.
    rewrite Hempty, app_nil_r. repeat split.
  - apply push_full_window; [exact Hdone | | exact Hlen].
    rewrite Hzero, Hsteps. reflexivity.
  - unfold waiting_items, store_log, bootstrap_log. cbn.
    rewrite Hempty. repeat split.
Qed.

(** Witness for [horizon_zero_never_buffers]: a non-terminal arrival. *)
Lemma horizon_zero_never_buffers_witness :
  exists self',
    ValueGradientObjective.push (sample_env 1 false) (sample_vgo (9 # 10) 0 [])
      = (inr tt, self') /\
    waiting_items self' = [] /\
    store_log self' = [[]] /\
    bootstrap_log self' = [[[1%Z]]].
Proof.
  exact (horizon_zero_never_buffers (sample_env 1 false)
           (sample_vgo (9 # 10) 0 []) eq_refl eq_refl).
Defined.

Lemma Forall2_map_twice {A} (R : A -> A -> Prop) (f g : A -> A) (l : list A) :
  (forall a, R a (g (f a))) ->
  Forall2 R l (map g (map f l)).
Proof.
  intros HR. induction l as [| a l IH]; cbn; constructor; auto.
Qed.

(** X9: on a full-window flush the incoming reward and the bootstrap
    estimate are folded with the same factor: every transferred
    transition carries its previous return plus
    [discount ^ (len - 1) * (reward + estimate)]. *)
Theorem full_window_flush_returns
  (env_dict : EnvDict) (self : ValueGradientObjective.t) :
  env_done env_dict = false ->
  (2 <= waiting_len self)%nat ->
  Z.of_nat (waiting_len self) = ValueGradientObjective._steps self ->
  exists self' batch,
    ValueGradientObjective.push env_dict self = (inr tt, self') /\
    store_log self' = store_log self ++ [batch] /\
    Forall2
      (fun pending sent =>
         n_step_return sent ==
         n_step_return pending +
         Qpower (ValueGradientObjective._discount_factor self)
                (Z.of_nat (waiting_len self) - 1)
         * (env_reward env_dict +
            Bootstrap.estimate (ValueGradientObjective._bootstrap_func self)
              [env_next_state env_dict]))
      (waiting_items self) batch.
Proof.
  intros Hdone Hlen Hfull. eexists. eexists. split.
  - apply push_full_window; [exact Hdone | exact Hfull | lia].
  - split; [cbn; reflexivity |].
    unfold waiting_items. cbn.
    apply Forall2_map_twice. intros e. unfold bump, fold_factor. cbn. ring.
Qed.

(** Witness for [full_window_flush_returns]: horizon 2, two pending. *)
Lemma full_window_flush_returns_witness :
  exists self' batch,
    ValueGradientObjective.push (sample_env 3 false)
      (sample_vgo (1 # 2) 2 [make_element (sample_env 1 false);
                             make_element (sample_env 2 false)])
      = (inr tt, self') /\
    store_log self' = [batch] /\
    Forall2 (fun pending sent =>
               n_step_return sent ==
               n_step_return pending + Qpower (1 # 2) 1 * (3 + 5))
      [make_element (sample_env 1 false); make_element (sample_env 2 false)]
      batch.
Proof.
  exact (full_window_flush_returns (sample_env 3 false)
           (sample_vgo (1 # 2) 2 [make_element (sample_env 1 false);
                                  make_element (sample_env 2 false)])
           eq_refl (le_n 2) eq_refl).
Defined.

(** ** [optimize] *)

(** X10: [ValueGradientObjective.optimize] returns normally and feeds the
    approximator one update per sampled batch, in the order sampled, with
    the batch's [state] column as input and its [n_step_return] column as
    [bellman_target_plh]; the waiting buffer, the Replay Store and the
    bootstrap function are untouched. *)
Theorem value_optimize_feeds_returns
  (session : Session) (batch_size : Z) (self : ValueGradientObjective.t) :
  exists self',
    ValueGradientObjective.optimize session batch_size self = (inr tt, self') /\
    Approximator.updates (ValueGradientObjective._func self') =
      Approximator.updates (ValueGradientObjective._func self) ++
      map (fun batch =>
             ([("state"%string, States (map state batch))],
              [("bellman_target_plh"%string,
                Reals (map n_step_return batch))]))
          (ReplayStore.sample_batches
             (ValueGradientObjective._replay_buffer self) batch_size
             (Objective._iterations_of_optimization
                (ValueGradientObjective.base self))) /\
    ValueGradientObjective._waiting_buffer self' =
      ValueGradientObjective._waiting_buffer self /\
    ValueGradientObjective._replay_buffer self' =
      ValueGradientObjective._replay_buffer self /\
    ValueGradientObjective._bootstrap_func self' =
      ValueGradientObjective._bootstrap_func self.
Proof.
  destruct session. eexists. split.
  - apply value_optimize_run.
  - repeat split.
Qed.

(** X11: [PolicyGradientObjective.optimize] returns normally and feeds
    the approximator one update per sampled batch, in the order sampled,
    with the batch's [state] column as input and its [action] and
    [next_state] columns as [action_taken] and [next_state]; the Replay
    Store and both placeholders are untouched. *)
Theorem policy_optimize_feeds_actions
  (session : Session) (batch_size : Z) (self : PolicyGradientObjective.t) :
  exists self',
    PolicyGradientObjective.optimize session batch_size self = (inr tt, self') /\
    Approximator.updates
      (Objective._func (PolicyGradientObjective.base self')) =
      Approximator.updates
        (Objective._func (PolicyGradientObjective.base self)) ++
      map (fun batch =>
             ([("state"%string, States (map state batch))],
              [("action_taken"%string, Actions (map action batch));
               ("next_state"%string, States (map next_state batch))]))
          (ReplayStore.sample_batches
             (Objective._replay_buffer (PolicyGradientObjective.base self))
             batch_size
             (Objective._iterations_of_optimization
                (PolicyGradientObjective.base self))) /\
    Objective._replay_buffer (PolicyGradientObjective.base self') =
      Objective._replay_buffer (PolicyGradientObjective.base self) /\
    PolicyGradientObjective._action_taken_plh self' =
      PolicyGradientObjective._action_taken_plh self /\
    PolicyGradientObjective._next_state_plh self' =
      PolicyGradientObjective._next_state_plh self.
Proof.
  destruct session. eexists. split.
  - apply policy_optimize_run.
  - repeat split.
Qed.

Lemma value_optimize_repeat (batch_size : Z) (n : nat) :
  forall self : ValueGradientObjective.t,
  exists self',
    repeat_call n (ValueGradientObjective.optimize tt batch_size) self
      = (inr tt, self') /\
    ValueGradientObjective.improvement_steps self' =
      (ValueGradientObjective.improvement_steps self + Z.of_nat n)%Z /\
    ValueGradientObjective._waiting_buffer self' =
      ValueGradientObjective._waiting_buffer self /\
    ValueGradientObjective._replay_buffer self' =
      ValueGradientObjective._replay_buffer self.
Proof.
  induction n as [| n IH]; intros self.
  - exists self. cbn. unfold ret. repeat split. lia.
  - cbn [repeat_call]. unfold bind. rewrite value_optimize_run.
    match goal with
    | |- context [repeat_call n _ ?mid] =>
        destruct (IH mid) as (self' & Hrun & Hsteps & Hwait & Hstore)
    end.
    exists self'. split; [exact Hrun |].
    rewrite Hsteps, Hwait, Hstore, Nat2Z.inj_succ.
    unfold ValueGradientObjective.improvement_steps,
      Objective.improvement_steps.
    cbn. repeat split. lia.
Qed.

Lemma policy_optimize_repeat (batch_size : Z) (n : nat) :
  forall self : PolicyGradientObjective.t,
  exists self',
    repeat_call n (PolicyGradientObjective.optimize tt batch_size) self
      = (inr tt, self') /\
    PolicyGradientObjective.improvement_steps self' =
      (PolicyGradientObjective.improvement_steps self + Z.of_nat n)%Z /\
    Objective._replay_buffer (PolicyGradientObjective.base self') =
      Objective._replay_buffer (PolicyGradientObjective.base self).
Proof.
  induction n as [| n IH]; intros self.
  - exists self. cbn. unfold ret. repeat split. lia.
  - cbn [repeat_call]. unfold bind. rewrite policy_optimize_run.
    match goal with
    | |- context [repeat_call n _ ?mid] =>
        destruct (IH mid) as (self' & Hrun & Hsteps & Hstore)
    end.
    exists self'. split; [exact Hrun |].
    rewrite Hsteps, Hstore, Nat2Z.inj_succ.
    unfold PolicyGradientObjective.improvement_steps,
      Objective.improvement_steps.
    cbn. repeat split. lia.
Qed.

(** X12: on a value-gradient or a policy-gradient objective,
    [improvement_steps] counts the calls of [optimize]: [n] calls in a row
    all return normally and raise it by exactly [n], and they leave the
    Replay Store (and the waiting buffer) as they found it. *)
Theorem improvement_steps_counts_calls
  (session : Session) (batch_size : Z) (n : nat) :
  (forall self : ValueGradientObjective.t,
     exists self',
       repeat_call n (ValueGradientObjective.optimize session batch_size) self
         = (inr tt, self') /\
       ValueGradientObjective.improvement_steps self' =
         (ValueGradientObjective.improvement_steps self + Z.of_nat n)%Z /\
       ValueGradientObjective._waiting_buffer self' =
         ValueGradientObjective._waiting_buffer self /\
       ValueGradientObjective._replay_buffer self' =
         ValueGradientObjective._replay_buffer self) /\
  (forall self : PolicyGradientObjective.t,
     exists self',
       repeat_call n (PolicyGradientObjective.optimize session batch_size) self
         = (inr tt, self') /\
       PolicyGradientObjective.improvement_steps self' =
         (PolicyGradientObjective.improvement_steps self + Z.of_nat n)%Z /\
       Objective._replay_buffer (PolicyGradientObjective.base self') =
         Objective._replay_buffer (PolicyGradientObjective.base self)).
Proof.
  destruct session. split; intros self.
  - apply value_optimize_repeat.
  - apply policy_optimize_repeat.
Qed.

(** ** [DecoupledValueGradientObjective] *)

Lemma decoupled_set_up_run (self : DecoupledValueGradientObjective.t) :
  exists ready,
    DecoupledValueGradientObjective.set_up tt self = (inr tt, ready) /\
    DecoupledValueGradientObjective._copy ready = Some 0%nat /\
    DecoupledValueGradientObjective._sync_period ready =
      DecoupledValueGradientObjective._sync_period self /\
    DecoupledValueGradientObjective._optimization_calls ready =
      DecoupledValueGradientObjective._optimization_calls self /\
    DecoupledValueGradientObjective.improvement_steps ready =
      DecoupledValueGradientObjective.improvement_steps self /\
    Approximator.set_up_calls
      (ValueGradientObjective._func (DecoupledValueGradientObjective.super ready)) =
      S (Approximator.set_up_calls
           (ValueGradientObjective._func
              (DecoupledValueGradientObjective.super self))) /\
    Bootstrap.set_up_calls
      (ValueGradientObjective._bootstrap_func
         (DecoupledValueGradientObjective.super ready)) =
      S (Bootstrap.set_up_calls
           (ValueGradientObjective._bootstrap_func
              (DecoupledValueGradientObjective.super self))) /\
    ValueGradientObjective._waiting_buffer
      (DecoupledValueGradientObjective.super ready) =
      ValueGradientObjective._waiting_buffer
        (DecoupledValueGradientObjective.super self).
Proof.
  eexists. split; [lazy; reflexivity |]. repeat split.
Qed.

(** The receiver of [DecoupledValueGradientObjective.optimize] once the
    inherited [optimize] has run. *)
Lemma decoupled_optimize_unfold
  (batch_size : Z) (self : DecoupledValueGradientObjective.t) :
  exists mid,
    DecoupledValueGradientObjective._copy mid =
      DecoupledValueGradientObjective._copy self /\
    DecoupledValueGradientObjective._sync_period mid =
      DecoupledValueGradientObjective._sync_period self /\
    DecoupledValueGradientObjective._optimization_calls mid =
      DecoupledValueGradientObjective._optimization_calls self /\
    DecoupledValueGradientObjective.improvement_steps mid =
      (DecoupledValueGradientObjective.improvement_steps self + 1)%Z /\
    DecoupledValueGradientObjective.optimize tt batch_size self =
      match py_mod (DecoupledValueGradientObjective._optimization_calls self)
                   (DecoupledValueGradientObjective._sync_period self) with
      | inl e => (inl e, mid)
      | inr m =>
          if (m =? 0)%Z
          then DecoupledValueGradientObjective.sync mid
          else
            (inr tt,
             DecoupledValueGradientObjective.with_super
               (ValueGradientObjective.with_base
                  (Objective.with_improvement_steps
                     (DecoupledValueGradientObjective.improvement_steps mid - 1)%Z
                     (ValueGradientObjective.base
                        (DecoupledValueGradientObjective.super mid)))
                  (DecoupledValueGradientObjective.super mid))
               mid)
      end.
Proof.
  eexists. split; [| split; [| split; [| split]]]; cycle 4.
  - unfold DecoupledValueGradientObjective.optimize, bind at 1, zoom.
    rewrite value_optimize_run.
    unfold bind at 1, get. unfold bind at 1, lift. cbn.
    destruct (py_mod (DecoupledValueGradientObjective._optimization_calls self)
                (DecoupledValueGradientObjective._sync_period self))
      as [e | m]; [reflexivity |].
    destruct (m =? 0)%Z; reflexivity.
  - reflexivity.
  - reflexivity.
  - reflexivity.
  - reflexivity.
Qed.

(** X13: the sync cadence the code has: for every non-zero
    [sync_period], [n] calls of [optimize] after [set_up] all return
    normally, run the copy operation on every call ([n] times) and raise
    [improvement_steps] by [n]. *)
Theorem every_optimize_call_syncs
  (batch_size : Z) (n : nat) (self : DecoupledValueGradientObjective.t) :
  DecoupledValueGradientObjective._sync_period self <> 0%Z ->
  DecoupledValueGradientObjective._optimization_calls self = 0%Z ->
  exists ready self',
    DecoupledValueGradientObjective.set_up tt self = (inr tt, ready) /\
    repeat_call n (DecoupledValueGradientObjective.optimize tt batch_size) ready
      = (inr tt, self') /\
    DecoupledValueGradientObjective.sync_count self' = n /\
    DecoupledValueGradientObjective.improvement_steps self' =
      (DecoupledValueGradientObjective.improvement_steps self + Z.of_nat n)%Z.
Proof.
  intros Hperiod Hcalls.
  destruct (decoupled_set_up_run self)
    as (ready & Hready & Hcopy & Hperiod' & Hcalls' & Hsteps & _).
  rewrite <- Hperiod' in Hperiod. rewrite <- Hcalls' in Hcalls.
  destruct (decoupled_optimize_repeat batch_size n ready 0 Hperiod Hcalls Hcopy)
    as (self' & Hrun & Hsync & Hsteps').
  exists ready, self'. rewrite Hsteps', Hsteps. auto.
Qed.

(** Witness for [every_optimize_call_syncs]: period 3, seven calls. *)
Lemma every_optimize_call_syncs_witness :
  exists ready self',
    DecoupledValueGradientObjective.set_up tt (sample_decoupled 3)
      = (inr tt, ready) /\
    repeat_call 7 (DecoupledValueGradientObjective.optimize tt 16) ready
      = (inr tt, self') /\
    DecoupledValueGradientObjective.sync_count self' = 7%nat /\
    DecoupledValueGradientObjective.improvement_steps self' = 7%Z.
Proof.
  exact (every_optimize_call_syncs 16 7 (sample_decoupled 3)
           ltac:(discriminate) eq_refl).
Defined.

(** X14: a call of [optimize] before [set_up] (the copy operation is
    still [None]) raises [TypeError] whenever the call counter is a
    multiple of the non-zero period, and does so after the inherited
    [optimize] has run: [improvement_steps] has already been raised by
    one. *)
Theorem optimize_before_set_up_raises
  (batch_size : Z) (self : DecoupledValueGradientObjective.t) :
  DecoupledValueGradientObjective._copy self = None ->
  DecoupledValueGradientObjective._sync_period self <> 0%Z ->
  (DecoupledValueGradientObjective._optimization_calls self
   mod DecoupledValueGradientObjective._sync_period self = 0)%Z ->
  exists self',
    DecoupledValueGradientObjective.optimize tt batch_size self
      = (inl TypeError, self') /\
    DecoupledValueGradientObjective.improvement_steps self' =
      (DecoupledValueGradientObjective.improvement_steps self + 1)%Z /\
    DecoupledValueGradientObjective._copy self' = None.
Proof.
  intros Hcopy Hperiod Hmod.
  destruct (decoupled_optimize_unfold batch_size self)
    as (mid & Hcopy' & _ & _ & Hsteps & Hrun).
  exists mid. rewrite Hrun. unfold py_mod.
  destruct (Z.eqb_spec (DecoupledValueGradientObjective._sync_period self) 0)
    as [E | _]; [contradiction |].
  rewrite Hmod. cbn [Z.eqb].
  unfold DecoupledValueGradientObjective.sync, bind, get.
  rewrite Hcopy' , Hcopy. unfold raise. auto.
Qed.

(** Witness for [optimize_before_set_up_raises]: a freshly built
    objective of period 5. *)
Lemma optimize_before_set_up_raises_witness :
  exists self',
    DecoupledValueGradientObjective.optimize tt 16 (sample_decoupled 5)
      = (inl TypeError, self') /\
    DecoupledValueGradientObjective.improvement_steps self' = 1%Z /\
    DecoupledValueGradientObjective._copy self' = None.
Proof.
  exact (optimize_before_set_up_raises 16 (sample_decoupled 5)
           eq_refl ltac:(discriminate) eq_refl).
Defined.

(** X15: with [sync_period = 0] every call of [optimize] raises
    [ZeroDivisionError]; the inherited [optimize] has run by then, so
    [improvement_steps] has been raised by one, and the copy operation
    has not been run. *)
Theorem optimize_zero_period_raises
  (batch_size : Z) (self : DecoupledValueGradientObjective.t) :
  DecoupledValueGradientObjective._sync_period self = 0%Z ->
  exists self',
    DecoupledValueGradientObjective.optimize tt batch_size self
      = (inl ZeroDivisionError, self') /\
    DecoupledValueGradientObjective.improvement_steps self' =
      (DecoupledValueGradientObjective.improvement_steps self + 1)%Z /\
    DecoupledValueGradientObjective._copy self' =
      DecoupledValueGradientObjective._copy self.
Proof.
  intros Hperiod.
  destruct (decoupled_optimize_unfold batch_size self)
    as (mid & Hcopy & _ & _ & Hsteps & Hrun).
  exists mid. rewrite Hrun. unfold py_mod. rewrite Hperiod. cbn [Z.eqb]. auto.
Qed.

(** Witness for [optimize_zero_period_raises]. *)
Lemma optimize_zero_period_raises_witness :
  exists self',
    DecoupledValueGradientObjective.optimize tt 16 (sample_decoupled 0)
      = (inl ZeroDivisionError, self') /\
    DecoupledValueGradientObjective.improvement_steps self' = 1%Z /\
    DecoupledValueGradientObjective._copy self' = None.
Proof.
  exact (optimize_zero_period_raises 16 (sample_decoupled 0) eq_refl).
Defined.

(** X16: no method of the decoupled objective writes the call counter or
    the period: after [set_up], [sync] or [optimize], returning or
    raising, [_optimization_calls] and [_sync_period] are what they
    were. *)
Theorem call_counter_is_never_written
  (batch_size : Z) (self : DecoupledValueGradientObjective.t) :
  let after_set_up := snd (DecoupledValueGradientObjective.set_up tt self) in
  let after_sync := snd (DecoupledValueGradientObjective.sync self) in
  let after_optimize :=
    snd (DecoupledValueGradientObjective.optimize tt batch_size self) in
  (DecoupledValueGradientObjective._optimization_calls after_set_up =
     DecoupledValueGradientObjective._optimization_calls self /\
   DecoupledValueGradientObjective._sync_period after_set_up =
     DecoupledValueGradientObjective._sync_period self) /\
  (DecoupledValueGradientObjective._optimization_calls after_sync =
     DecoupledValueGradientObjective._optimization_calls self /\
   DecoupledValueGradientObjective._sync_period after_sync =
     DecoupledValueGradientObjective._sync_period self) /\
  (DecoupledValueGradientObjective._optimization_calls after_optimize =
     DecoupledValueGradientObjective._optimization_calls self /\
   DecoupledValueGradientObjective._sync_period after_optimize =
     DecoupledValueGradientObjective._sync_period self).
Proof.
  cbv zeta. split; [| split].
  - destruct (decoupled_set_up_run self) as (ready & Hrun & _ & Hp & Hc & _).
    rewrite Hrun. cbn [snd]. auto.
  - unfold DecoupledValueGradientObjective.sync, bind, get.
    destruct (DecoupledValueGradientObjective._copy self); cbn; auto.
  - destruct (decoupled_optimize_unfold batch_size self)
      as (mid & _ & Hp & Hc & _ & Hrun).
    rewrite Hrun.
    destruct (py_mod _ _) as [e | m]; [cbn [snd]; auto |].
    destruct (m =? 0)%Z; [| cbn; auto].
    unfold DecoupledValueGradientObjective.sync, bind, get.
    destruct (DecoupledValueGradientObjective._copy mid); cbn; auto.
Qed.

(** X17: were the call counter not a multiple of the (non-zero) period,
    [optimize] would return normally with the updates applied but with
    [improvement_steps] back at its previous value and the copy operation
    not run. *)
Theorem off_cadence_call_is_not_counted
  (batch_size : Z) (self : DecoupledValueGradientObjective.t) :
  DecoupledValueGradientObjective._sync_period self <> 0%Z ->
  (DecoupledValueGradientObjective._optimization_calls self
   mod DecoupledValueGradientObjective._sync_period self <> 0)%Z ->
  exists self',
    DecoupledValueGradientObjective.optimize tt batch_size self = (inr tt, self') /\
    DecoupledValueGradientObjective.improvement_steps self' =
      DecoupledValueGradientObjective.improvement_steps self /\
    DecoupledValueGradientObjective._copy self' =
      DecoupledValueGradientObjective._copy self /\
    length (Approximator.updates
              (ValueGradientObjective._func
                 (DecoupledValueGradientObjective.super self'))) =
      (length (Approximator.updates
                 (ValueGradientObjective._func
                    (DecoupledValueGradientObjective.super self))) +
       length (ReplayStore.sample_batches
                 (ValueGradientObjective._replay_buffer
                    (DecoupledValueGradientObjective.super self))
                 batch_size
                 (Objective._iterations_of_optimization
                    (ValueGradientObjective.base
                       (DecoupledValueGradientObjective.super self)))))%nat.
Proof.
  intros Hperiod Hmod.
  eexists. split.
  - unfold DecoupledValueGradientObjective.optimize, bind at 1, zoom.
    rewrite value_optimize_run.
    unfold bind at 1, get. unfold bind at 1, lift, py_mod. cbn.
    destruct (Z.eqb_spec (DecoupledValueGradientObjective._sync_period self) 0)
      as [E | _]; [contradiction |].
    destruct (Z.eqb_spec
                (DecoupledValueGradientObjective._optimization_calls self
                 mod DecoupledValueGradientObjective._sync_period self) 0)
      as [E | _]; [contradiction |].
    reflexivity.
  - unfold DecoupledValueGradientObjective.improvement_steps,
      ValueGradientObjective.improvement_steps, Objective.improvement_steps.
    cbn. rewrite length_app, length_map. repeat split. lia.
Qed.

(** Witness for [off_cadence_call_is_not_counted]: counter 1, period 5. *)
Lemma off_cadence_call_is_not_counted_witness :
  let self :=
    {| DecoupledValueGradientObjective.super := sample_vgo (99 # 100) 3 [];
       DecoupledValueGradientObjective._copy := Some 0%nat;
       DecoupledValueGradientObjective._sync_period := 5;
       DecoupledValueGradientObjective._optimization_calls := 1 |} in
  exists self',
    DecoupledValueGradientObjective.optimize tt 16 self = (inr tt, self') /\
    DecoupledValueGradientObjective.improvement_steps self' = 0%Z /\
    DecoupledValueGradientObjective._copy self' = Some 0%nat.
Proof.
  destruct (off_cadence_call_is_not_counted 16
              {| DecoupledValueGradientObjective.super := sample_vgo (99 # 100) 3 [];
                 DecoupledValueGradientObjective._copy := Some 0%nat;
                 DecoupledValueGradientObjective._sync_period := 5;
                 DecoupledValueGradientObjective._optimization_calls := 1 |}
              ltac:(discriminate) ltac:(vm_compute; discriminate))
    as (self' & Hrun & Hsteps & Hcopy & _).
  exists self'. repeat split; assumption.
Defined.

(** X18: [sync] needs [set_up]: while the copy operation is [None] it
    raises [TypeError] and changes nothing; [set_up] sets up the
    approximator and the bootstrap approximator once each and builds the
    copy operation, after which [sync] returns normally and only adds one
    run of the copy operation. *)
Theorem sync_needs_set_up :
  (forall self : DecoupledValueGradientObjective.t,
     DecoupledValueGradientObjective._copy self = None ->
     DecoupledValueGradientObjective.sync self = (inl TypeError, self)) /\
  (forall self : DecoupledValueGradientObjective.t,
     exists ready self',
       DecoupledValueGradientObjective.set_up tt self = (inr tt, ready) /\
       Approximator.set_up_calls
         (ValueGradientObjective._func
            (DecoupledValueGradientObjective.super ready)) =
         S (Approximator.set_up_calls
              (ValueGradientObjective._func
                 (DecoupledValueGradientObjective.super self))) /\
       Bootstrap.set_up_calls
         (ValueGradientObjective._bootstrap_func
            (DecoupledValueGradientObjective.super ready)) =
         S (Bootstrap.set_up_calls
              (ValueGradientObjective._bootstrap_func
                 (DecoupledValueGradientObjective.super self))) /\
       DecoupledValueGradientObjective.sync ready = (inr tt, self') /\
       DecoupledValueGradientObjective.sync_count self' = 1%nat /\
       DecoupledValueGradientObjective.super self' =
         DecoupledValueGradientObjective.super ready).
Proof.
  split.
  - intros self Hcopy.
    unfold DecoupledValueGradientObjective.sync, bind, get.
    now rewrite Hcopy.
  - intros self.
    destruct (decoupled_set_up_run self)
      as (ready & Hrun & Hcopy & _ & _ & _ & Hfunc & Hboot & _).
    exists ready. eexists. split; [exact Hrun |].
    split; [exact Hfunc |]. split; [exact Hboot |].
    unfold DecoupledValueGradientObjective.sync, bind, get, modify.
    rewrite Hcopy. repeat split.
Qed.

(** Witness for [sync_needs_set_up]: a freshly built objective. *)
Lemma sync_needs_set_up_witness :
  DecoupledValueGradientObjective.sync (sample_decoupled 5)
    = (inl TypeError, sample_decoupled 5) /\
  DecoupledValueGradientObjective.sync_count
    (snd (DecoupledValueGradientObjective.sync
            (snd (DecoupledValueGradientObjective.set_up tt
                    (sample_decoupled 5))))) = 1%nat.
Proof.
  destruct sync_needs_set_up as [Hnone Hready]. split.
  - apply Hnone. reflexivity.
  - reflexivity.
Defined.

(** ** [ValueGradientObjective.set_up] *)

(** The loss [set_up] builds for an objective. *)
Lemma value_set_up_run (self : ValueGradientObjective.t) :
  exists ready objective,
    ValueGradientObjective.set_up tt self = (inr tt, ready) /\
    Objective._objective (ValueGradientObjective.base ready) = Some objective /\
    objective =
      ReduceMean
        (let loss :=
           Mul (Const (1 # 2))
             (Square (Sub (Placeholder "bellman_target_plh")
                          (FuncOutput
                             (Approximator.name_scope
                                (ValueGradientObjective._func self))))) in
         match Objective.regularizers (ValueGradientObjective.base self) with
         | Some (r :: rs) => Add loss (fold_left Add (r :: rs) (Const 0))
         | _ => loss
         end)
        "objective" /\
    Approximator.minimized (ValueGradientObjective._func ready) =
      Approximator.minimized (ValueGradientObjective._func self) ++ [objective] /\
    Approximator.target_placeholders (ValueGradientObjective._func ready) =
      Approximator.target_placeholders (ValueGradientObjective._func self)
      ++ [Placeholder "bellman_target_plh"] /\
    Approximator.set_up_calls (ValueGradientObjective._func ready) =
      S (Approximator.set_up_calls (ValueGradientObjective._func self)) /\
    Approximator.updates (ValueGradientObjective._func ready) =
      Approximator.updates (ValueGradientObjective._func self) /\
    ValueGradientObjective._waiting_buffer ready =
      ValueGradientObjective._waiting_buffer self /\
    ValueGradientObjective._replay_buffer ready =
      ValueGradientObjective._replay_buffer self /\
    ValueGradientObjective.improvement_steps ready =
      ValueGradientObjective.improvement_steps self.
Proof.
  destruct self as [[sc rb f it ob im regs] d s b w].
  destruct regs as [[| r rs] |];
    (eexists; eexists; split; [lazy; reflexivity |]; repeat split).
Qed.

(** X19: [ValueGradientObjective.set_up] returns normally; it sets the
    approximator up once, registers the one target placeholder
    [bellman_target_plh], stores as [_objective] the mean of
    [(1/2) * square(bellman_target_plh - func)], to which
    [0 + r1 + ... + rn] is added exactly when the regularizers are a
    non-empty list, and hands that same tensor to [minimize] once; it
    touches neither buffer nor [improvement_steps]. *)
Theorem value_set_up_builds_half_squared_error
  (session : Session) (self : ValueGradientObjective.t) :
  exists ready objective,
    ValueGradientObjective.set_up session self = (inr tt, ready) /\
    Objective._objective (ValueGradientObjective.base ready) = Some objective /\
    objective =
      ReduceMean
        (let loss :=
           Mul (Const (1 # 2))
             (Square (Sub (Placeholder "bellman_target_plh")
                          (FuncOutput
                             (Approximator.name_scope
                                (ValueGradientObjective._func self))))) in
         match Objective.regularizers (ValueGradientObjective.base self) with
         | Some (r :: rs) => Add loss (fold_left Add (r :: rs) (Const 0))
         | _ => loss
         end)
        "objective" /\
    Approximator.minimized (ValueGradientObjective._func ready) =
      Approximator.minimized (ValueGradientObjective._func self) ++ [objective] /\
    Approximator.target_placeholders (ValueGradientObjective._func ready) =
      Approximator.target_placeholders (ValueGradientObjective._func self)
      ++ [Placeholder "bellman_target_plh"] /\
    Approximator.set_up_calls (ValueGradientObjective._func ready) =
      S (Approximator.set_up_calls (ValueGradientObjective._func self)) /\
    Approximator.updates (ValueGradientObjective._func ready) =
      Approximator.updates (ValueGradientObjective._func self) /\
    ValueGradientObjective._waiting_buffer ready =
      ValueGradientObjective._waiting_buffer self /\
    ValueGradientObjective._replay_buffer ready =
      ValueGradientObjective._replay_buffer self /\
    ValueGradientObjective.improvement_steps ready =
      ValueGradientObjective.improvement_steps self.
Proof.
  destruct session. apply value_set_up_run.
Qed.

(** X20: [set_up] is not idempotent: [k] calls in a row register the
    placeholder [k] times, set the approximator up [k] times and call
    [minimize] [k] times. *)
Theorem value_set_up_repeats_registration (k : nat) :
  forall self : ValueGradientObjective.t,
  exists self',
    repeat_call k (ValueGradientObjective.set_up tt) self = (inr tt, self') /\
    Approximator.target_placeholders (ValueGradientObjective._func self') =
      Approximator.target_placeholders (ValueGradientObjective._func self)
      ++ repeat (Placeholder "bellman_target_plh") k /\
    Approximator.set_up_calls (ValueGradientObjective._func self') =
      (Approximator.set_up_calls (ValueGradientObjective._func self) + k)%nat /\
    length (Approximator.minimized (ValueGradientObjective._func self')) =
      (length (Approximator.minimized (ValueGradientObjective._func self)) + k)%nat.
Proof.
  induction k as [| k IH]; intros self.
  - exists self. cbn. unfold ret. rewrite app_nil_r.
    repeat split; lia.
  - destruct (value_set_up_run self)
      as (ready & objective & Hrun & _ & _ & Hmin & Hplh & Hcalls & _).
    destruct (IH ready) as (self' & Hrest & Hplh' & Hcalls' & Hmin').
    exists self'. cbn [repeat_call]. unfold bind. rewrite Hrun.
    split; [exact Hrest |].
    rewrite Hplh', Hplh, Hcalls', Hcalls, Hmin', Hmin, length_app.
    cbn [repeat length]. rewrite <- app_assoc. cbn [app].
    repeat split; lia.
Qed.

(** ** [PolicyGradientObjective] *)

(** X21: a policy-gradient objective buffers nothing: every call of
    [push] returns normally and hands exactly the one incoming transition
    to the Replay Store, so a stream of samples arrives there one by one
    and in order; the approximator, [improvement_steps] and the
    placeholders are untouched. *)
Theorem policy_push_forwards_each_transition (envs : list EnvDict) :
  forall self : PolicyGradientObjective.t,
  exists self',
    for_each envs PolicyGradientObjective.push self = (inr tt, self') /\
    ReplayStore.pushed
      (Objective._replay_buffer (PolicyGradientObjective.base self')) =
      ReplayStore.pushed
        (Objective._replay_buffer (PolicyGradientObjective.base self))
      ++ map (fun env_dict => [make_element env_dict]) envs /\
    Objective._func (PolicyGradientObjective.base self') =
      Objective._func (PolicyGradientObjective.base self) /\
    PolicyGradientObjective.improvement_steps self' =
      PolicyGradientObjective.improvement_steps self /\
    PolicyGradientObjective._action_taken_plh self' =
      PolicyGradientObjective._action_taken_plh self /\
    PolicyGradientObjective._next_state_plh self' =
      PolicyGradientObjective._next_state_plh self.
Proof.
  induction envs as [| env_dict envs IH]; intros self.
  - exists self. cbn. unfold ret. rewrite app_nil_r. repeat split.
  - cbn [for_each]. unfold bind.
    unfold PolicyGradientObjective.push at 1, modify.
    match goal with
    | |- context [for_each envs _ ?mid] =>
        destruct (IH mid) as (self' & Hrun & Hlog & Hfunc & Hsteps & Ha & Hn)
    end.
    exists self'. split; [exact Hrun |].
    rewrite Hlog, Hfunc, Hsteps, Ha, Hn. cbn.
    rewrite <- app_assoc. repeat split.
Qed.

(** X22: the first access to a placeholder creates it: on an objective
    whose [_action_taken_plh] (resp. [_next_state_plh]) is still [None],
    [action_taken_plh] (resp. [next_state_plh]) returns the new
    placeholder, stores it and registers it with the approximator exactly
    once, without touching the other placeholder. *)
Theorem placeholder_first_access_creates
  (shape : option Z) (self : PolicyGradientObjective.t) :
  (PolicyGradientObjective._action_taken_plh self = None ->
   exists self',
     PolicyPlaceholders.action_taken_plh shape self =
       (inr (Some (Placeholder "action_taken")), self') /\
     PolicyGradientObjective._action_taken_plh self' =
       Some (Placeholder "action_taken") /\
     PolicyGradientObjective._next_state_plh self' =
       PolicyGradientObjective._next_state_plh self /\
     Approximator.target_placeholders
       (Objective._func (PolicyGradientObjective.base self')) =
       Approximator.target_placeholders
         (Objective._func (PolicyGradientObjective.base self))
       ++ [Placeholder "action_taken"]) /\
  (PolicyGradientObjective._next_state_plh self = None ->
   exists self',
     PolicyPlaceholders.next_state_plh shape self =
       (inr (Some (Placeholder "next_state")), self') /\
     PolicyGradientObjective._next_state_plh self' =
       Some (Placeholder "next_state") /\
     PolicyGradientObjective._action_taken_plh self' =
       PolicyGradientObjective._action_taken_plh self /\
     Approximator.target_placeholders
       (Objective._func (PolicyGradientObjective.base self')) =
       Approximator.target_placeholders
         (Objective._func (PolicyGradientObjective.base self))
       ++ [Placeholder "next_state"]).
Proof.
  split; intros Hnone; eexists; split.
  - unfold PolicyPlaceholders.action_taken_plh, bind at 1, get at 1.
    unfold bind at 1, lift. rewrite Hnone. lazy. reflexivity.
  - repeat split.
  - unfold PolicyPlaceholders.next_state_plh, bind at 1, get at 1.
    unfold bind at 1, lift. rewrite Hnone. lazy. reflexivity.
  - repeat split.
Qed.

(** Witness for [placeholder_first_access_creates]. *)
Lemma placeholder_first_access_creates_witness :
  let self :=
    {| PolicyGradientObjective.base := sample_base;
       PolicyGradientObjective._policy_return := Placeholder "return";
       PolicyGradientObjective._from_gradient := false;
       PolicyGradientObjective._action_taken_plh := None;
       PolicyGradientObjective._next_state_plh := None |} in
  fst (PolicyPlaceholders.action_taken_plh (Some 2%Z) self) =
    inr (Some (Placeholder "action_taken")) /\
  fst (PolicyPlaceholders.next_state_plh (Some 4%Z) self) =
    inr (Some (Placeholder "next_state")).
Proof.
  cbv zeta. split.
  - destruct (placeholder_first_access_creates (Some 2%Z)
                {| PolicyGradientObjective.base := sample_base;
                   PolicyGradientObjective._policy_return := Placeholder "return";
                   PolicyGradientObjective._from_gradient := false;
                   PolicyGradientObjective._action_taken_plh := None;
                   PolicyGradientObjective._next_state_plh := None |})
      as [Haction _].
    destruct (Haction eq_refl) as (self' & Hrun & _).
    now rewrite Hrun.
  - reflexivity.
Defined.

(** X23: a second access fails: once a placeholder is stored, the guard
    [if not self._action_taken_plh] (resp. [_next_state_plh]) asks a
    tensor for its truth value, which raises [TypeError]; the objective
    is left unchanged and nothing more is registered. *)
Theorem placeholder_second_access_raises
  (shape : option Z) (self : PolicyGradientObjective.t) (plh : Tensor) :
  (PolicyGradientObjective._action_taken_plh self = Some plh ->
   PolicyPlaceholders.action_taken_plh shape self = (inl TypeError, self)) /\
  (PolicyGradientObjective._next_state_plh self = Some plh ->
   PolicyPlaceholders.next_state_plh shape self = (inl TypeError, self)).
Proof.
  split; intros Hsome.
  - unfold PolicyPlaceholders.action_taken_plh, bind at 1, get at 1.
    unfold bind at 1, lift. now rewrite Hsome.
  - unfold PolicyPlaceholders.next_state_plh, bind at 1, get at 1.
    unfold bind at 1, lift. now rewrite Hsome.
Qed.

(** Witness for [placeholder_second_access_raises]: two accesses in a
    row. *)
Lemma placeholder_second_access_raises_witness :
  let self :=
    {| PolicyGradientObjective.base := sample_base;
       PolicyGradientObjective._policy_return := Placeholder "return";
       PolicyGradientObjective._from_gradient := false;
       PolicyGradientObjective._action_taken_plh := None;
       PolicyGradientObjective._next_state_plh := None |} in
  let once := snd (PolicyPlaceholders.action_taken_plh (Some 2%Z) self) in
  PolicyPlaceholders.action_taken_plh (Some 2%Z) once = (inl TypeError, once).
Proof.
  cbv zeta.
  apply (placeholder_second_access_raises (Some 2%Z)
           (snd (PolicyPlaceholders.action_taken_plh (Some 2%Z)
                   {| PolicyGradientObjective.base := sample_base;
                      PolicyGradientObjective._policy_return :=
                        Placeholder "return";
                      PolicyGradientObjective._from_gradient := false;
                      PolicyGradientObjective._action_taken_plh := None;
                      PolicyGradientObjective._next_state_plh := None |}))
           (Placeholder "action_taken")).
  reflexivity.
Defined.

(** ** [approximators/base_approximators.py] *)

(** X24: [gaussian_policy] never returns a value, whatever it is called
    with and whatever the TensorFlow operations do: its second
    [tf.layers.dense] call leaves the required parameter [units] without
    a value, so whenever the mean layer and [tf.ones] have been built the
    call raises [TypeError]; otherwise the earlier exception is raised.
    The same holds of the entry [GAUSSIAN] of [OUTPUTS]. *)
Theorem gaussian_policy_never_returns
  (run_op : string -> BaseApproximators.Env -> PyExc + BaseApproximators.Arg)
  (args : list BaseApproximators.Arg) :
  (exists e, BaseApproximators.gaussian_policy run_op args = inl e) /\
  (exists e,
     BaseApproximators.build_output run_op "GAUSSIAN" args = Some (inl e)) /\
  (forall ones,
     BaseApproximators.tf_layers_dense run_op [ones]
       [("activation"%string, BaseApproximators.ANone);
        ("use_bias"%string, BaseApproximators.ABool false)] = inl TypeError) /\
  (forall tensor_inputs num_actions mean ones,
     args = [tensor_inputs; num_actions] ->
     BaseApproximators.tf_layers_dense run_op [tensor_inputs; num_actions]
       [("activation"%string, BaseApproximators.ANone)] = inr mean ->
     BaseApproximators.tf_ones run_op
       [BaseApproximators.AList [BaseApproximators.AInt 1; num_actions]] []
       = inr ones ->
     BaseApproximators.gaussian_policy run_op args = inl TypeError).
Proof.
  assert (Hunits : forall ones,
            BaseApproximators.tf_layers_dense run_op [ones]
              [("activation"%string, BaseApproximators.ANone);
               ("use_bias"%string, BaseApproximators.ABool false)]
            = inl TypeError) by (intros ones; reflexivity).
  assert (Hraise : exists e,
            BaseApproximators.gaussian_policy run_op args = inl e).
  { destruct args as [| a [| b [| c rest]]];
      try (exists TypeError; reflexivity).
    unfold BaseApproximators.gaussian_policy.
    destruct (BaseApproximators.tf_layers_dense run_op [a; b] _)
      as [e | mean]; [now exists e |].
    destruct (BaseApproximators.tf_ones run_op _ _)
      as [e | ones]; [now exists e |].
    rewrite Hunits. now exists TypeError. }
  split; [exact Hraise |]. split; [| split; [exact Hunits |]].
  - destruct Hraise as [e He]. exists e.
    unfold BaseApproximators.build_output. cbn. now rewrite He.
  - intros tensor_inputs num_actions mean ones -> Hmean Hones.
    unfold BaseApproximators.gaussian_policy.
    now rewrite Hmean, Hones, Hunits.
Qed.

(** Witness for [gaussian_policy_never_returns]: operations that always
    return, a tensor and the integer 2. *)
Lemma gaussian_policy_never_returns_witness :
  BaseApproximators.gaussian_policy BaseApproximators.symbolic_op
    [BaseApproximators.ATensor "features"; BaseApproximators.AInt 2]
    = inl TypeError.
Proof.
  destruct (gaussian_policy_never_returns BaseApproximators.symbolic_op
              [BaseApproximators.ATensor "features"; BaseApproximators.AInt 2])
    as (_ & _ & _ & Hbuilt).
  eapply Hbuilt; reflexivity.
Defined.

(** X25: the other three output layers check their arity and then pass
    their arguments on unchanged.  [value_function] and
    [multinomial_policy] raise [TypeError] when not given two arguments,
    [binomial_policy] when not given one, so every argument list makes
    the entry [VALUE] or the entry [BINOMIAL] of [OUTPUTS] raise
    [TypeError]; with the right number of arguments the outcome is that
    of the one TensorFlow call: [tf.layers.dense] on the inputs and units
    with every other parameter at its default, [tf.nn.softmax] on the
    inputs with the given axis, [tf.nn.sigmoid] on the inputs. *)
Theorem output_layers_check_arity_and_delegate
  (run_op : string -> BaseApproximators.Env -> PyExc + BaseApproximators.Arg)
  (args : list BaseApproximators.Arg) :
  (length args <> 2%nat ->
   BaseApproximators.value_function run_op args = inl TypeError /\
   BaseApproximators.multinomial_policy run_op args = inl TypeError) /\
  (length args <> 1%nat ->
   BaseApproximators.binomial_policy run_op args = inl TypeError) /\
  (BaseApproximators.build_output run_op "VALUE" args = Some (inl TypeError) \/
   BaseApproximators.build_output run_op "BINOMIAL" args = Some (inl TypeError)) /\
  (forall tensor_inputs num_actions,
     BaseApproximators.value_function run_op [tensor_inputs; num_actions] =
     run_op "tf.layers.dense"%string
       (("inputs"%string, tensor_inputs) :: ("units"%string, num_actions)
        :: BaseApproximators.defaults BaseApproximators.dense_signature)) /\
  (forall tensor_inputs axis,
     BaseApproximators.multinomial_policy run_op [tensor_inputs; axis] =
     run_op "tf.nn.softmax"%string
       [("logits"%string, tensor_inputs); ("axis"%string, axis);
        ("name"%string, BaseApproximators.ANone);
        ("dim"%string, BaseApproximators.ANone)]) /\
  (forall tensor_inputs,
     BaseApproximators.binomial_policy run_op [tensor_inputs] =
     run_op "tf.nn.sigmoid"%string
       [("x"%string, tensor_inputs); ("name"%string, BaseApproximators.ANone)]).
Proof.
  split; [| split; [| split; [| split; [| split]]]].
  - intros Hlen.
    destruct args as [| a [| b [| c rest]]]; try (split; reflexivity).
    exfalso. apply Hlen. reflexivity.
  - intros Hlen.
    destruct args as [| a [| b rest]]; try reflexivity.
    exfalso. apply Hlen. reflexivity.
  - destruct args as [| a [| b [| c rest]]];
      try (left; reflexivity); right; reflexivity.
  - intros. reflexivity.
  - intros. reflexivity.
  - intros. reflexivity.
Qed.

(** Witness for [output_layers_check_arity_and_delegate]: one argument
    is too few for [value_function], two are too many for
    [binomial_policy]. *)
Lemma output_layers_check_arity_and_delegate_witness :
  BaseApproximators.value_function BaseApproximators.symbolic_op
    [BaseApproximators.ATensor "features"] = inl TypeError /\
  BaseApproximators.binomial_policy BaseApproximators.symbolic_op
    [BaseApproximators.ATensor "features"; BaseApproximators.AInt 2]
    = inl TypeError.
Proof.
  split.
  - apply (output_layers_check_arity_and_delegate
             BaseApproximators.symbolic_op
             [BaseApproximators.ATensor "features"]).
    cbn. lia.
  - apply (output_layers_check_arity_and_delegate
             BaseApproximators.symbolic_op
             [BaseApproximators.ATensor "features"; BaseApproximators.AInt 2]).
    cbn. lia.
Defined.

(** ** [Objective.__init__] *)

(** X26: [Objective.__init__] takes exactly four explicit arguments: with
    any other number it raises [TypeError] before setting any attribute;
    with four, the second being a replay buffer, it returns normally with
    [_improvement_steps] at 0, [_objective] and [regularizers] at [None],
    [_element_cls] taken from the buffer and the other three arguments
    stored as given. *)
Theorem Objective_init_arity_and_defaults
  (args : list Constructors.PyVal) (self : Constructors.Instance) :
  (length args <> 4%nat ->
   Constructors.Objective__init__ args self = (inl TypeError, self)) /\
  (forall scope store func iterations,
     args = [scope; Constructors.VStore store; func; iterations] ->
     exists self',
       Constructors.Objective__init__ args self = (inr tt, self') /\
       Constructors.getattr "_improvement_steps" self' =
         Some (Constructors.VInt 0) /\
       Constructors.getattr "_objective" self' = Some Constructors.VNone /\
       Constructors.getattr "regularizers" self' = Some Constructors.VNone /\
       Constructors.getattr "_element_cls" self' =
         Some Constructors.VElementCls /\
       Constructors.getattr "_scope" self' = Some scope /\
       Constructors.getattr "_replay_buffer" self' =
         Some (Constructors.VStore store) /\
       Constructors.getattr "_func" self' = Some func /\
       Constructors.getattr "_iterations_of_optimization" self' =
         Some iterations).
Proof.
  split.
  - intros Hlen.
    destruct args as [| a [| b [| c [| d [| e rest]]]]];
      try reflexivity.
    exfalso. apply Hlen. reflexivity.
  - intros scope store func iterations ->.
    eexists. split; [reflexivity |]. repeat split.
Qed.

(** Witness for [Objective_init_arity_and_defaults]: the five arguments
    the subclasses pass, and four arguments. *)
Lemma Objective_init_arity_and_defaults_witness :
  Constructors.Objective__init__
    [Constructors.VSelf; Constructors.VStr "agent";
     Constructors.VStore sample_store; Constructors.VApprox sample_func;
     Constructors.VInt 2] [] = (inl TypeError, []) /\
  exists self',
    Constructors.Objective__init__
      [Constructors.VStr "agent"; Constructors.VStore sample_store;
       Constructors.VApprox sample_func; Constructors.VInt 2] []
      = (inr tt, self') /\
    Constructors.getattr "_improvement_steps" self' =
      Some (Constructors.VInt 0).
Proof.
  split.
  - apply (Objective_init_arity_and_defaults
             [Constructors.VSelf; Constructors.VStr "agent";
              Constructors.VStore sample_store;
              Constructors.VApprox sample_func; Constructors.VInt 2] []).
    cbn. lia.
  - destruct (Objective_init_arity_and_defaults
                [Constructors.VStr "agent"; Constructors.VStore sample_store;
                 Constructors.VApprox sample_func; Constructors.VInt 2] [])
      as [_ Hfour].
    destruct (Hfour (Constructors.VStr "agent") sample_store
                (Constructors.VApprox sample_func) (Constructors.VInt 2)
                eq_refl) as (self' & Hrun & Hsteps & _).
    exists self'. split; assumption.
Defined.
